(** * Manifest rewriting scripts: [add_hotpath.py] and [add_channels_console.py]

    A shallow embedding of the two maintenance scripts and the properties
    of their clean-then-insert text transformation.  A manifest is the list
    of lines returned by [readlines()]; every line is a [string] that keeps
    its trailing newline. *)

From Stdlib Require Import String Ascii List Bool Arith Lia Permutation Sorted.
From stdpp Require Import gmap strings.
Import ListNotations.
Local Open Scope string_scope.
Local Open Scope list_scope.

(** ** Text constants *)

(** The one-character string ['\n']. *)
Definition nl : string := String "010"%char EmptyString.

(** The one-character string holding a double quote. *)
Definition dq : string := String "034"%char EmptyString.

(** A line of text: [s] followed by its newline. *)
Definition ln (s : string) : string := String.append s nl.

(** The literal ['[features]\n'] appended by both scripts when they
    synthesize a features section. *)
Definition features_header_line : string :=
  Eval cbv in ln "[features]".

(** ** Header patterns

    [re.match(r'^\[dependencies\]', line)], [re.match(r'^\[features\]', line)]
    and [re.match(r'^\[', line)]: the patterns hold no metacharacter besides
    the anchor, so each one is a prefix test. *)

Definition match_dependencies (line : string) : bool :=
  String.prefix "[dependencies]" line.

Definition match_features (line : string) : bool :=
  String.prefix "[features]" line.

Definition match_bracket (line : string) : bool :=
  String.prefix "[" line.

(** ** Python list operations used by the scripts *)

(** [l.insert(-1, v)]: [v] goes in front of the last element; on an empty
    list it is simply appended. *)
Definition insert_neg1 {A : Type} (v : A) (l : list A) : list A :=
  match l with
  | [] => [v]
  | _ => List.removelast l ++ [v; List.last l v]
  end.

(** [for v in vs: l.append(v)] *)
Definition append_all {A : Type} (vs : list A) (l : list A) : list A :=
  fold_left (fun acc v => acc ++ [v]) vs l.

(** [for v in vs: l.insert(-1, v)] *)
Definition insert_neg1_all {A : Type} (vs : list A) (l : list A) : list A :=
  fold_left (fun acc v => insert_neg1 v acc) vs l.

(** ** The rewriter, as written in [add_hotpath.py]

    The two module-level constants are the section variables.  The state of
    the second loop holds the three variables the loop updates; the script
    also sets [dependencies_section_ended = False] once and never reads it,
    so it has no field. *)

Record state : Type := mkState {
  new_lines : list string;
  dependency_added : bool;
  features_added : bool
}.

Section Rewriter.

Variable DEPENDENCY_LINE : string.
Variable FEATURE_LINES : list string.

(** [line == DEPENDENCY_LINE or line in FEATURE_LINES] *)
Definition is_directive (line : string) : bool :=
  String.eqb line DEPENDENCY_LINE || existsb (String.eqb line) FEATURE_LINES.

(** One iteration of the first loop, on the pair
    [(features_exists, cleaned_lines)]. *)
Definition first_pass_step (acc : bool * list string) (line : string)
  : bool * list string :=
  let '(features_exists, cleaned_lines) := acc in
  if is_directive line then (features_exists, cleaned_lines)
  else
    let features_exists :=
      if match_features line then true else features_exists in
    (features_exists, cleaned_lines ++ [line]).

Definition first_pass (lines : list string) : bool * list string :=
  fold_left first_pass_step lines (false, []).

(** One iteration of the [while i < len(cleaned_lines)] loop. *)
Definition second_pass_step (features_exists : bool) (st : state)
    (line : string) : state :=
  let new_lines := new_lines st ++ [line] in
  if match_dependencies line && negb (dependency_added st) then
    mkState (new_lines ++ [DEPENDENCY_LINE]) true (features_added st)
  else if match_features line && negb (features_added st) then
    mkState (append_all FEATURE_LINES new_lines) (dependency_added st) true
  else if match_bracket line && negb (match_dependencies line) then
    if dependency_added st && negb features_exists
       && negb (features_added st) then
      mkState
        (insert_neg1_all FEATURE_LINES
           (insert_neg1 features_header_line (insert_neg1 nl new_lines)))
        (dependency_added st) true
    else mkState new_lines (dependency_added st) (features_added st)
  else mkState new_lines (dependency_added st) (features_added st).

(** The block after the loop: a features section appended at the end. *)
Definition finish (features_exists : bool) (st : state) : state :=
  if dependency_added st && negb features_exists
     && negb (features_added st) then
    mkState
      (append_all FEATURE_LINES ((new_lines st ++ [nl]) ++ [features_header_line]))
      (dependency_added st) true
  else st.

(** Both passes: from the lines read to the final values of [new_lines],
    [dependency_added] and [features_added]. *)
Definition run (lines : list string) : state :=
  let '(features_exists, cleaned_lines) := first_pass lines in
  finish features_exists
    (fold_left (second_pass_step features_exists) cleaned_lines
       (mkState [] false false)).

(** The content written back. *)
Definition transform (lines : list string) : list string :=
  new_lines (run lines).

End Rewriter.

(** ** The constants of [add_hotpath.py] *)

Module Hotpath.

Definition DEPENDENCY_LINE : string :=
  Eval cbv in
    String.concat ""
      ["hotpath = { version = "; dq; "0.7"; dq; ", optional = true }"; nl].

Definition FEATURE_LINES : list string :=
  Eval cbv in
    [ String.concat ""
        ["hotpath = ["; dq; "dep:hotpath"; dq; ", "; dq; "hotpath/hotpath"; dq; "]"; nl];
      String.concat ""
        ["hotpath-alloc = ["; dq; "hotpath/hotpath-alloc"; dq; "]"; nl];
      nl;
      String.concat ""
        ["hotpath-off = ["; dq; "hotpath/hotpath-off"; dq; "]"; nl] ].

Definition run := run DEPENDENCY_LINE FEATURE_LINES.
Definition transform := transform DEPENDENCY_LINE FEATURE_LINES.

End Hotpath.

(** ** The rewriter as written in [add_channels_console.py]

    This script carries a single [FEATURE_LINE] where the other one has the
    list [FEATURE_LINES]; its flag [feature_added] is the field
    [features_added] of [state]. *)

Module ChannelsConsole.

Definition DEPENDENCY_LINE : string :=
  Eval cbv in
    String.concat ""
      ["channels-console = { version = "; dq; "0.2"; dq;
       ", optional = true, features=['tokio', 'futures'] }"; nl].

Definition FEATURE_LINE : string := nl.

Definition first_pass_step (acc : bool * list string) (line : string)
  : bool * list string :=
  let '(features_exists, cleaned_lines) := acc in
  if String.eqb line DEPENDENCY_LINE || String.eqb line FEATURE_LINE
  then (features_exists, cleaned_lines)
  else
    let features_exists :=
      if match_features line then true else features_exists in
    (features_exists, cleaned_lines ++ [line]).

Definition first_pass (lines : list string) : bool * list string :=
  fold_left first_pass_step lines (false, []).

Definition second_pass_step (features_exists : bool) (st : state)
    (line : string) : state :=
  let new_lines := new_lines st ++ [line] in
  if match_dependencies line && negb (dependency_added st) then
    mkState (new_lines ++ [DEPENDENCY_LINE]) true (features_added st)
  else if match_features line && negb (features_added st) then
    mkState (new_lines ++ [FEATURE_LINE]) (dependency_added st) true
  else if match_bracket line && negb (match_dependencies line) then
    if dependency_added st && negb features_exists
       && negb (features_added st) then
      mkState
        (insert_neg1 FEATURE_LINE
           (insert_neg1 features_header_line (insert_neg1 nl new_lines)))
        (dependency_added st) true
    else mkState new_lines (dependency_added st) (features_added st)
  else mkState new_lines (dependency_added st) (features_added st).

Definition finish (features_exists : bool) (st : state) : state :=
  if dependency_added st && negb features_exists
     && negb (features_added st) then
    mkState
      (((new_lines st ++ [nl]) ++ [features_header_line]) ++ [FEATURE_LINE])
      (dependency_added st) true
  else st.

Definition run (lines : list string) : state :=
  let '(features_exists, cleaned_lines) := first_pass lines in
  finish features_exists
    (fold_left (second_pass_step features_exists) cleaned_lines
       (mkState [] false false)).

Definition transform (lines : list string) : list string :=
  new_lines (run lines).

End ChannelsConsole.

(** ** The two scripts side by side *)

Inductive script : Type := add_hotpath | add_channels_console.

Definition dependency_line (s : script) : string :=
  match s with
  | add_hotpath => Hotpath.DEPENDENCY_LINE
  | add_channels_console => ChannelsConsole.DEPENDENCY_LINE
  end.

Definition feature_lines (s : script) : list string :=
  match s with
  | add_hotpath => Hotpath.FEATURE_LINES
  | add_channels_console => [ChannelsConsole.FEATURE_LINE]
  end.

Definition run_of (s : script) : list string -> state :=
  match s with
  | add_hotpath => Hotpath.run
  | add_channels_console => ChannelsConsole.run
  end.

Definition transform_of (s : script) (lines : list string) : list string :=
  new_lines (run_of s lines).

(** The cleanup pass alone: the [cleaned_lines] of the first loop. *)
Definition cleanup_of (s : script) (lines : list string) : list string :=
  match s with
  | add_hotpath =>
      snd (first_pass Hotpath.DEPENDENCY_LINE Hotpath.FEATURE_LINES lines)
  | add_channels_console => snd (ChannelsConsole.first_pass lines)
  end.

(** ** Files, console output and the two entry points

    A [Path] is the list of its parts.  The file system maps every path
    that exists to a directory or to a regular file; a file has its access
    rights and its content, whose bytes either decode to a text under the
    locale's encoding or do not.  The platform gives [os.linesep].  Symbolic
    links, the access rights of directories and failures of the device are
    outside the model.  What a run does to its surroundings is kept as a
    trace of events. *)

Abbreviation path := (list string).

(** Text mode on input ([open(file_path, 'r')], universal newlines): a
    carriage return followed by a line feed, and a carriage return alone,
    both arrive as ['\n']. *)
Fixpoint universal_newlines (raw : string) : string :=
  match raw with
  | EmptyString => EmptyString
  | String c rest =>
      if Ascii.eqb c "013"%char then
        match rest with
        | EmptyString => String "010"%char EmptyString
        | String c' rest' =>
            if Ascii.eqb c' "010"%char
            then String "010"%char (universal_newlines rest')
            else String "010"%char (universal_newlines rest)
        end
      else String c (universal_newlines rest)
  end.

(** Text mode on output ([open(file_path, 'w')]): every ['\n'] written
    becomes [os.linesep]. *)
Fixpoint newline_out (linesep text : string) : string :=
  match text with
  | EmptyString => EmptyString
  | String c rest =>
      if Ascii.eqb c "010"%char
      then String.append linesep (newline_out linesep rest)
      else String c (newline_out linesep rest)
  end.

(** [f.readlines()] on the text that text mode delivers: the lines, each
    with its ['\n']; a last line without one is kept as it is. *)
Fixpoint readlines (text : string) : list string :=
  match text with
  | EmptyString => []
  | String c rest =>
      if Ascii.eqb c "010"%char then String c EmptyString :: readlines rest
      else match readlines rest with
           | [] => [String c EmptyString]
           | l :: ls => String c l :: ls
           end
  end.

(** [f.writelines(lines)]: the lines one after the other, nothing added. *)
Definition writelines (lines : list string) : string :=
  String.concat "" lines.

Inductive message : Type :=
| Processing (file_path : path)
| AddedAll
| CouldNotAddAll
| DoesNotExist (crates_dir : path)
| Found (n : nat)
| Done (n : nat).

Inductive event : Type :=
| EvPrint (m : message)
| EvRead (file_path : path)
| EvWrite (file_path : path) (raw : string).

Inductive exn : Type :=
| FileNotFoundError (file_path : path)
| IsADirectoryError (file_path : path)
| PermissionError (file_path : path)
| UnicodeDecodeError (file_path : path).

(** The bytes of a file: they decode to the text [raw], or they do not. *)
Inductive content : Type :=
| Text (raw : string)
| Undecodable.

Inductive entry : Type :=
| Directory
| File (readable writable : bool) (c : content).

Record world : Type := mkWorld {
  entries : gmap path entry;
  os_linesep : string
}.

Inductive outcome : Type :=
| Returned (w : world) (trace : list event)
| Raised (e : exn) (w : world) (trace : list event).

(** The exit status of the interpreter: 0 after a normal return of [main],
    1 after an uncaught exception. *)
Definition exit_status (o : outcome) : nat :=
  match o with
  | Returned _ _ => 0
  | Raised _ _ _ => 1
  end.

Definition world_of (o : outcome) : world :=
  match o with
  | Returned w _ => w
  | Raised _ w _ => w
  end.

Definition trace_of (o : outcome) : list event :=
  match o with
  | Returned _ tr => tr
  | Raised _ _ tr => tr
  end.

(** [process_cargo_toml(file_path)].  [open(file_path, 'r')] fails on a
    missing path, a directory and an unreadable file, [f.readlines()] on
    bytes that do not decode, [open(file_path, 'w')] on a file that may not
    be written; an exception leaves the file as it was. *)
Definition process_cargo_toml (s : script) (file_path : path) (w : world)
  : outcome :=
  match entries w !! file_path with
  | None =>
      Raised (FileNotFoundError file_path) w [EvPrint (Processing file_path)]
  | Some Directory =>
      Raised (IsADirectoryError file_path) w [EvPrint (Processing file_path)]
  | Some (File readable writable c) =>
      if negb readable then
        Raised (PermissionError file_path) w [EvPrint (Processing file_path)]
      else
        match c with
        | Undecodable =>
            Raised (UnicodeDecodeError file_path) w
              [EvPrint (Processing file_path); EvRead file_path]
        | Text raw =>
            let lines := readlines (universal_newlines raw) in
            let st := run_of s lines in
            if negb writable then
              Raised (PermissionError file_path) w
                [EvPrint (Processing file_path); EvRead file_path]
            else
              let written :=
                newline_out (os_linesep w) (writelines (new_lines st)) in
              Returned
                (mkWorld
                   (<[file_path := File readable writable (Text written)]>
                      (entries w))
                   (os_linesep w))
                [ EvPrint (Processing file_path);
                  EvRead file_path;
                  EvWrite file_path written;
                  EvPrint (if dependency_added st && features_added st
                           then AddedAll else CouldNotAddAll) ]
        end
  end.

(** [crates_dir.exists()] *)
Definition path_exists (w : world) (p : path) : bool :=
  match entries w !! p with
  | Some _ => true
  | None => false
  end.

Definition is_directory (w : world) (p : path) : bool :=
  match entries w !! p with
  | Some Directory => true
  | _ => false
  end.

(** The paths of the shape [crates_dir/<name>/Cargo.toml]. *)
Definition is_cargo_file (crates_dir file_path : path) : bool :=
  bool_decide (take (length crates_dir) file_path = crates_dir)
  && match drop (length crates_dir) file_path with
     | [_; name] => String.eqb name "Cargo.toml"
     | _ => false
     end.

(** [crates_dir.glob('*/Cargo.toml')]: [*] runs over the directories in
    [crates_dir], and under each of them whatever is named [Cargo.toml] is
    a match, a file or a directory; nothing matches when [crates_dir] is no
    directory. *)
Definition glob_cargo_files (crates_dir : path) (w : world) : list path :=
  List.filter
    (fun p => is_cargo_file crates_dir p
              && is_directory w crates_dir
              && is_directory w (List.removelast p))
    (elements (dom (entries w))).

(** [sorted(cargo_files)]: paths compare part by part. *)
Fixpoint path_leb (p q : path) : bool :=
  match p, q with
  | [], _ => true
  | _ :: _, [] => false
  | a :: p', b :: q' =>
      match String.compare a b with
      | Lt => true
      | Eq => path_leb p' q'
      | Gt => false
      end
  end.

Fixpoint insert_sorted (p : path) (ps : list path) : list path :=
  match ps with
  | [] => [p]
  | q :: ps' => if path_leb p q then p :: ps else q :: insert_sorted p ps'
  end.

Definition sorted (ps : list path) : list path :=
  fold_right insert_sorted [] ps.

(** [for cargo_file in ...: process_cargo_toml(cargo_file)]; an exception
    ends the loop. *)
Fixpoint process_each (s : script) (cargo_files : list path) (w : world)
    (trace : list event) : outcome :=
  match cargo_files with
  | [] => Returned w trace
  | cargo_file :: rest =>
      match process_cargo_toml s cargo_file w with
      | Returned w' tr => process_each s rest w' (trace ++ tr)
      | Raised e w' tr => Raised e w' (trace ++ tr)
      end
  end.

(** [main()], with [script_dir] standing for [Path(__file__).parent].  An
    exception of [process_cargo_toml] is not caught: it ends the run before
    the closing line is printed. *)
Definition main (s : script) (script_dir : path) (w : world) : outcome :=
  let crates_dir := script_dir ++ ["crates"] in
  if negb (path_exists w crates_dir) then
    Returned w [EvPrint (DoesNotExist crates_dir)]
  else
    let cargo_files := glob_cargo_files crates_dir w in
    match process_each s (sorted cargo_files) w
            [EvPrint (Found (length cargo_files))] with
    | Returned w' tr =>
        Returned w' (tr ++ [EvPrint (Done (length cargo_files))])
    | Raised e w' tr => Raised e w' tr
    end.


(** * Properties *)

(** ** Specification-side vocabulary *)

(** Number of lines of [l] that satisfy [p]. *)
Definition count_lines (p : string -> bool) (l : list string) : nat :=
  length (List.filter p l).

(** The cleanup pass described as a filter. *)
Definition cleanup (DEPENDENCY_LINE : string) (FEATURE_LINES : list string)
    (lines : list string) : list string :=
  List.filter (fun line => negb (is_directive DEPENDENCY_LINE FEATURE_LINES line))
    lines.

(** A section header other than the dependencies header. *)
Definition other_section (line : string) : bool :=
  match_bracket line && negb (match_dependencies line).

(** [block] placed right after the first element of [l] that satisfies [p]. *)
Fixpoint insert_after_first (p : string -> bool) (block l : list string)
  : list string :=
  match l with
  | [] => []
  | x :: rest =>
      if p x then x :: block ++ rest
      else x :: insert_after_first p block rest
  end.

(** What one iteration of the second loop adds to [new_lines], with the
    new values of [dependency_added] and [features_added]. *)
Definition emit (DEPENDENCY_LINE : string) (FEATURE_LINES : list string)
    (features_exists da fa : bool) (line : string)
  : list string * (bool * bool) :=
  if match_dependencies line && negb da then
    ([line; DEPENDENCY_LINE], (true, fa))
  else if match_features line && negb fa then
    (line :: FEATURE_LINES, (da, true))
  else if other_section line && (da && negb features_exists && negb fa) then
    (nl :: features_header_line :: FEATURE_LINES ++ [line], (da, true))
  else ([line], (da, fa)).

(** The second loop as a recursion over the cleaned lines. *)
Fixpoint walk (DEPENDENCY_LINE : string) (FEATURE_LINES : list string)
    (features_exists da fa : bool) (l : list string) : state :=
  match l with
  | [] => mkState [] da fa
  | line :: rest =>
      let '(chunk, (da', fa')) :=
        emit DEPENDENCY_LINE FEATURE_LINES features_exists da fa line in
      let st := walk DEPENDENCY_LINE FEATURE_LINES features_exists da' fa' rest in
      mkState (chunk ++ new_lines st) (dependency_added st) (features_added st)
  end.

(** What the proofs need to know about the two constants of a script: no
    directive line looks like a section header, the blank line is one of the
    feature lines, and the dependency line is not. *)
Record directive_ok (DEPENDENCY_LINE : string) (FEATURE_LINES : list string)
  : Prop := mkDirectiveOk {
  dep_no_bracket : match_bracket DEPENDENCY_LINE = false;
  feats_no_bracket :
    forallb (fun f => negb (match_bracket f)) FEATURE_LINES = true;
  blank_is_feature : existsb (String.eqb nl) FEATURE_LINES = true;
  dep_not_feature : existsb (String.eqb DEPENDENCY_LINE) FEATURE_LINES = false
}.

(** The block after the loop, on the result of [walk]. *)
Definition close (FEATURE_LINES : list string) (fe : bool) (st : state)
  : state :=
  if dependency_added st && negb fe && negb (features_added st) then
    mkState (new_lines st ++ nl :: features_header_line :: FEATURE_LINES)
      (dependency_added st) true
  else st.

(** A line the scripts have no business with: no section header, and none
    of the directive lines. *)
Definition unrelated (s : script) (line : string) : bool :=
  negb (match_bracket line)
  && negb (is_directive (dependency_line s) (feature_lines s) line).

(** ** Sample manifests and checkouts *)

(** The manifest that holds the dependencies header and nothing else. *)
Definition dependencies_only : list string := [ln "[dependencies]"].

(** A manifest with a features header and no dependencies header. *)
Definition features_only : list string :=
  [ln "[package]"; ln "name = 1"; nl; ln "[features]"; ln "default = []"].

(** A manifest with neither header. *)
Definition package_only : list string := [ln "[package]"; ln "name = 1"].

(** A checkout whose [crates/a/Cargo.toml] holds the dependencies header. *)
Definition sample_path : path := ["repo"; "crates"; "a"; "Cargo.toml"].

Definition sample_world : world :=
  mkWorld
    (<[ ["repo"] := Directory ]>
       (<[ ["repo"; "crates"] := Directory ]>
          (<[ ["repo"; "crates"; "a"] := Directory ]>
             {[ sample_path := File true true (Text (ln "[dependencies]")) ]})))
    nl.

(** A checkout without a [crates/] directory. *)
Definition bare_world : world :=
  mkWorld
    (<[ ["repo"] := Directory ]>
       {[ ["repo"; "Cargo.toml"]
          := File true true (Text (ln "[dependencies]")) ]})
    nl.

(** A checkout where [crates/a/Cargo.toml] is a directory and
    [crates/b/Cargo.toml] a manifest. *)
Definition broken_world : world :=
  mkWorld
    (<[ ["repo"] := Directory ]>
       (<[ ["repo"; "crates"] := Directory ]>
          (<[ ["repo"; "crates"; "a"] := Directory ]>
             (<[ ["repo"; "crates"; "a"; "Cargo.toml"] := Directory ]>
                (<[ ["repo"; "crates"; "b"] := Directory ]>
                   {[ ["repo"; "crates"; "b"; "Cargo.toml"]
                      := File true true (Text (ln "[dependencies]")) ]})))))
    nl.


(** A manifest that already holds two copies of a feature line. *)
Definition twice_edited : list string :=
  [ ln "[dependencies]"; ln "[features]";
    hd nl Hotpath.FEATURE_LINES; hd nl Hotpath.FEATURE_LINES ].

(** ** Vocabulary for whole files and whole runs *)

(** The two-character string ['\r\n']. *)
Definition crlf : string :=
  String "013"%char (String "010"%char EmptyString).

(** The values [os.linesep] takes: ['\n'], and ['\r\n'] on Windows. *)
Definition known_linesep (linesep : string) : bool :=
  String.eqb linesep nl || String.eqb linesep crlf.

(** A string without any carriage return. *)
Fixpoint no_cr (s : string) : bool :=
  match s with
  | EmptyString => true
  | String c rest => negb (Ascii.eqb c "013"%char) && no_cr rest
  end.

(** The [lines] of the script for a file whose bytes decode to [raw]. *)
Definition read_lines (raw : string) : list string :=
  readlines (universal_newlines raw).

(** What one run of a script leaves in a file whose bytes decoded to
    [raw], on a platform with the given [os.linesep]. *)
Definition rewrite_raw (s : script) (linesep raw : string) : string :=
  newline_out linesep (writelines (transform_of s (read_lines raw))).


(** A line that ends with its newline and holds no other one. *)
Fixpoint terminated (line : string) : bool :=
  match line with
  | EmptyString => false
  | String c rest =>
      if Ascii.eqb c "010"%char then String.eqb rest EmptyString
      else terminated rest
  end.

(** A string without any newline. *)
Fixpoint no_newline (s : string) : bool :=
  match s with
  | EmptyString => true
  | String c rest => negb (Ascii.eqb c "010"%char) && no_newline rest
  end.

(** A text that is empty or ends with a newline. *)
Fixpoint ends_with_newline (text : string) : bool :=
  match text with
  | EmptyString => true
  | String c EmptyString => Ascii.eqb c "010"%char
  | String _ rest => ends_with_newline rest
  end.

(** A regular file that may be read and written and whose bytes decode. *)
Definition usable_file (w : world) (p : path) : bool :=
  match entries w !! p with
  | Some (File true true (Text _)) => true
  | _ => false
  end.

(** What processing [file_path] adds to the trace, for a usable file of the
    world [w]. *)
Definition file_events (s : script) (w : world) (file_path : path)
  : list event :=
  match entries w !! file_path with
  | Some (File true true (Text raw)) =>
      [ EvPrint (Processing file_path);
        EvRead file_path;
        EvWrite file_path (rewrite_raw s (os_linesep w) raw);
        EvPrint (if existsb match_dependencies (read_lines raw)
                 then AddedAll else CouldNotAddAll) ]
  | _ => []
  end.

(** Everything [main] finds under [crates_dir] is a usable file. *)
Definition manifests_usable (crates_dir : path) (w : world) : bool :=
  forallb (usable_file w) (glob_cargo_files crates_dir w).

(** Every manifest [main] finds under [crates_dir] is, as text mode
    delivers it, empty or ended by a newline. *)
Definition manifests_end_with_newline (crates_dir : path) (w : world) : bool :=
  forallb
    (fun p => match entries w !! p with
              | Some (File _ _ (Text raw)) =>
                  ends_with_newline (universal_newlines raw)
              | _ => true
              end)
    (glob_cargo_files crates_dir w).

(** What one run leaves of an entry it processes. *)
Definition rewrite_entry (s : script) (linesep : string) (e : entry) : entry :=
  match e with
  | File readable writable (Text raw) =>
      File readable writable (Text (rewrite_raw s linesep raw))
  | _ => e
  end.

(** The manifest [crates_dir/name/Cargo.toml]. *)
Definition cargo_file (crates_dir : path) (name : string) : path :=
  crates_dir ++ [name; "Cargo.toml"].

(** ** Facts about the patterns and the list operations *)

Lemma prefix_empty s : String.prefix "" s = true.
Proof. now destruct s. Qed.

Lemma prefix_cons_inv a s1 s2 :
  String.prefix (String a s1) s2 = true ->
  exists s2', s2 = String a s2' /\ String.prefix s1 s2' = true.
Proof.
  destruct s2 as [|b s2]; cbn [String.prefix]; [discriminate|].
  destruct (ascii_dec a b) as [->|]; [eauto|discriminate].
Qed.

Lemma prefix_cons_same a s1 s2 :
  String.prefix (String a s1) (String a s2) = String.prefix s1 s2.
Proof. cbn [String.prefix]. destruct (ascii_dec a a); congruence. Qed.

Lemma match_dependencies_bracket line :
  match_dependencies line = true -> match_bracket line = true.
Proof.
  unfold match_dependencies, match_bracket. intros H.
  apply prefix_cons_inv in H as (l & -> & _).
  rewrite prefix_cons_same. apply prefix_empty.
Qed.

Lemma match_features_bracket line :
  match_features line = true -> match_bracket line = true.
Proof.
  unfold match_features, match_bracket. intros H.
  apply prefix_cons_inv in H as (l & -> & _).
  rewrite prefix_cons_same. apply prefix_empty.
Qed.

Lemma match_dependencies_not_features line :
  match_dependencies line = true -> match_features line = false.
Proof.
  unfold match_dependencies, match_features. intros H.
  apply prefix_cons_inv in H as (l & -> & H).
  apply prefix_cons_inv in H as (l' & -> & _).
  rewrite prefix_cons_same. cbn [String.prefix].
  now destruct (ascii_dec "f" "d").
Qed.

Lemma insert_neg1_snoc {A} (v x : A) (l : list A) :
  insert_neg1 v (l ++ [x]) = l ++ [v; x].
Proof.
  unfold insert_neg1. destruct (l ++ [x]) eqn:E.
  - now destruct l.
  - rewrite <- E, removelast_last, last_last. reflexivity.
Qed.

Lemma append_all_app {A} (vs l : list A) : append_all vs l = l ++ vs.
Proof.
  unfold append_all. revert l.
  induction vs as [|v vs IH]; intros l; simpl.
  - now rewrite app_nil_r.
  - rewrite IH, <- app_assoc. reflexivity.
Qed.

Lemma insert_neg1_all_snoc {A} (vs l : list A) (x : A) :
  insert_neg1_all vs (l ++ [x]) = l ++ vs ++ [x].
Proof.
  unfold insert_neg1_all. revert l.
  induction vs as [|v vs IH]; intros l; simpl; [reflexivity|].
  rewrite insert_neg1_snoc.
  change (l ++ [v; x]) with (l ++ [v] ++ [x]).
  rewrite app_assoc, IH, <- app_assoc. reflexivity.
Qed.

Lemma count_lines_app p l1 l2 :
  count_lines p (l1 ++ l2) = count_lines p l1 + count_lines p l2.
Proof. unfold count_lines. now rewrite List.filter_app, length_app. Qed.

Lemma count_lines_cons p x l :
  count_lines p (x :: l) = (if p x then 1 else 0) + count_lines p l.
Proof. unfold count_lines. simpl. now destruct (p x). Qed.

Lemma count_lines_zero p l :
  count_lines p l = 0 <-> existsb p l = false.
Proof.
  induction l as [|x l IH]; simpl; [tauto|].
  rewrite count_lines_cons. destruct (p x); simpl; [split; [lia|discriminate]|exact IH].
Qed.

Lemma existsb_filter_implied (p q : string -> bool) l :
  (forall x, p x = true -> q x = true) ->
  existsb p (List.filter q l) = existsb p l.
Proof.
  intros Hpq. induction l as [|x l IH]; simpl; [reflexivity|].
  destruct (q x) eqn:Eq; simpl.
  - now rewrite IH.
  - destruct (p x) eqn:Ep; [|exact IH].
    apply Hpq in Ep. congruence.
Qed.

(** Either no element satisfies [p], or the list splits at the first one
    that does. *)
Lemma split_at_first (p : string -> bool) l :
  existsb p l = false \/
  exists l1 x l2, l = l1 ++ x :: l2 /\ existsb p l1 = false /\ p x = true.
Proof.
  induction l as [|y l IH]; simpl; [now left|].
  destruct (p y) eqn:Ep; simpl.
  - right. exists [], y, l. auto.
  - destruct IH as [IH|(l1 & x & l2 & -> & H1 & Hx)]; [now left|].
    right. exists (y :: l1), x, l2. simpl. rewrite Ep. auto.
Qed.

Lemma filter_rejected (p : string -> bool) l :
  forallb (fun f => negb (p f)) l = true -> List.filter p l = [].
Proof.
  induction l as [|x l IH]; simpl; [reflexivity|].
  intros H. apply andb_true_iff in H as [Hx Hl].
  apply negb_true_iff in Hx. rewrite Hx. auto.
Qed.

Lemma count_rejected (p : string -> bool) l :
  forallb (fun f => negb (p f)) l = true -> count_lines p l = 0.
Proof.
  intros H. unfold count_lines. now rewrite (filter_rejected p l H).
Qed.

Lemma existsb_count_pos (p : string -> bool) l :
  existsb p l = true <-> 0 < count_lines p l.
Proof.
  pose proof (count_lines_zero p l) as H.
  destruct (existsb p l), (count_lines p l);
    intuition (try lia; try discriminate).
Qed.

(** ** The loops of the script against their recursive descriptions *)

Section Loops.

Variable DEP : string.
Variable FEATS : list string.

Lemma synth_insert (l : list string) (x : string) :
  insert_neg1_all FEATS
    (insert_neg1 features_header_line (insert_neg1 nl (l ++ [x])))
  = l ++ nl :: features_header_line :: FEATS ++ [x].
Proof.
  rewrite insert_neg1_snoc.
  change (l ++ [nl; x]) with (l ++ [nl] ++ [x]).
  rewrite app_assoc, insert_neg1_snoc.
  change ((l ++ [nl]) ++ [features_header_line; x])
    with ((l ++ [nl]) ++ [features_header_line] ++ [x]).
  rewrite app_assoc, insert_neg1_all_snoc.
  repeat rewrite <- app_assoc. reflexivity.
Qed.

Lemma first_pass_fold lines fe acc :
  fold_left (first_pass_step DEP FEATS) lines (fe, acc)
  = (fe || existsb match_features (cleanup DEP FEATS lines),
     acc ++ cleanup DEP FEATS lines).
Proof.
  revert fe acc.
  induction lines as [|line lines IH]; intros fe acc; simpl.
  - now rewrite orb_false_r, app_nil_r.
  - destruct (is_directive DEP FEATS line); simpl; [apply IH|].
    rewrite IH, <- app_assoc. f_equal.
    destruct (match_features line), fe; reflexivity.
Qed.

Lemma first_pass_cleanup lines :
  first_pass DEP FEATS lines
  = (existsb match_features (cleanup DEP FEATS lines),
     cleanup DEP FEATS lines).
Proof. unfold first_pass. now rewrite first_pass_fold. Qed.

Lemma second_pass_step_emit fe st line :
  second_pass_step DEP FEATS fe st line
  = let '(chunk, (da, fa)) :=
      emit DEP FEATS fe (dependency_added st) (features_added st) line in
    mkState (new_lines st ++ chunk) da fa.
Proof.
  destruct st as [out da fa].
  unfold second_pass_step, emit, other_section; simpl.
  destruct (match_dependencies line), da; simpl;
    destruct (match_features line), fa; simpl;
    destruct (match_bracket line), fe; simpl;
    rewrite ?append_all_app, ?synth_insert, <- ?app_assoc; reflexivity.
Qed.

Lemma second_pass_walk fe l st :
  fold_left (second_pass_step DEP FEATS fe) l st
  = let r := walk DEP FEATS fe (dependency_added st) (features_added st) l in
    mkState (new_lines st ++ new_lines r)
      (dependency_added r) (features_added r).
Proof.
  revert st. induction l as [|line l IH]; intros st; simpl.
  - rewrite app_nil_r. now destruct st.
  - rewrite IH, second_pass_step_emit.
    destruct (emit DEP FEATS fe (dependency_added st) (features_added st) line)
      as [chunk [da fa]]; simpl.
    now rewrite <- app_assoc.
Qed.

Lemma finish_close fe st : finish FEATS fe st = close FEATS fe st.
Proof.
  unfold finish, close.
  destruct (dependency_added st && negb fe && negb (features_added st));
    [|reflexivity].
  rewrite append_all_app, <- !app_assoc. reflexivity.
Qed.

Lemma run_walk lines :
  run DEP FEATS lines
  = close FEATS (existsb match_features (cleanup DEP FEATS lines))
      (walk DEP FEATS (existsb match_features (cleanup DEP FEATS lines))
         false false (cleanup DEP FEATS lines)).
Proof.
  unfold run. rewrite first_pass_cleanup, second_pass_walk, finish_close.
  simpl. now destruct (walk _ _ _ _ _ _).
Qed.

End Loops.

(** ** Facts about the second loop *)

(** Case analysis on the three patterns at [line]; the combinations no line
    can show are discarded. *)
Ltac pattern_cases line :=
  let Emd := fresh "Emd" in
  let Emf := fresh "Emf" in
  let Emb := fresh "Emb" in
  destruct (match_dependencies line) eqn:Emd;
  destruct (match_features line) eqn:Emf;
  destruct (match_bracket line) eqn:Emb;
  try (apply match_dependencies_not_features in Emd; congruence);
  try (apply match_dependencies_bracket in Emd; congruence);
  try (apply match_features_bracket in Emf; congruence).

Section WalkFacts.

Variable DEP : string.
Variable FEATS : list string.
Hypothesis Hok : directive_ok DEP FEATS.

Local Abbreviation clean := (cleanup DEP FEATS).

Lemma directive_no_bracket line :
  is_directive DEP FEATS line = true -> match_bracket line = false.
Proof using Hok.
  unfold is_directive. intros H. apply orb_true_iff in H as [H|H].
  - apply String.eqb_eq in H as ->. apply Hok.
  - apply existsb_exists in H as (f & Hin & Hf).
    apply String.eqb_eq in Hf as ->.
    pose proof (feats_no_bracket _ _ Hok) as Hall.
    rewrite forallb_forall in Hall. apply Hall in Hin.
    now apply negb_true_iff in Hin.
Qed.

Lemma dep_is_directive : is_directive DEP FEATS DEP = true.
Proof. unfold is_directive. now rewrite String.eqb_refl. Qed.

Lemma feature_is_directive f : In f FEATS -> is_directive DEP FEATS f = true.
Proof.
  intros Hin. unfold is_directive. apply orb_true_iff. right.
  apply existsb_exists. exists f. split; [assumption|apply String.eqb_refl].
Qed.

Lemma blank_is_directive : is_directive DEP FEATS nl = true.
Proof using Hok.
  unfold is_directive. rewrite (blank_is_feature _ _ Hok). apply orb_true_r.
Qed.

Lemma header_line_not_directive :
  is_directive DEP FEATS features_header_line = false.
Proof using Hok.
  destruct (is_directive DEP FEATS features_header_line) eqn:E;
    [|reflexivity].
  apply directive_no_bracket in E. discriminate.
Qed.

Lemma cleanup_keeps_dependencies lines :
  existsb match_dependencies (clean lines) = existsb match_dependencies lines.
Proof using Hok.
  apply existsb_filter_implied. intros x Hx.
  destruct (is_directive DEP FEATS x) eqn:E; [|reflexivity].
  apply directive_no_bracket in E.
  apply match_dependencies_bracket in Hx. congruence.
Qed.

Lemma cleanup_keeps_features lines :
  existsb match_features (clean lines) = existsb match_features lines.
Proof using Hok.
  apply existsb_filter_implied. intros x Hx.
  destruct (is_directive DEP FEATS x) eqn:E; [|reflexivity].
  apply directive_no_bracket in E.
  apply match_features_bracket in Hx. congruence.
Qed.

(** *** The flags after the loop *)

Lemma walk_dependency_added fe da fa c :
  dependency_added (walk DEP FEATS fe da fa c) = da || existsb match_dependencies c.
Proof.
  revert da fa. induction c as [|line c IH]; intros da fa; simpl.
  - now rewrite orb_false_r.
  - unfold emit, other_section.
    pattern_cases line; destruct da, fa, fe; simpl; rewrite IH; reflexivity.
Qed.

Lemma walk_features_added_true fe da c :
  features_added (walk DEP FEATS fe da true c) = true.
Proof.
  revert da. induction c as [|line c IH]; intros da; simpl; [reflexivity|].
  unfold emit, other_section.
  pattern_cases line; destruct da, fe; simpl; apply IH.
Qed.

Lemma walk_features_added_header da fa c :
  features_added (walk DEP FEATS true da fa c) = fa || existsb match_features c.
Proof.
  revert da fa. induction c as [|line c IH]; intros da fa; simpl.
  - now rewrite orb_false_r.
  - unfold emit, other_section.
    pattern_cases line; destruct da, fa; simpl; rewrite IH; reflexivity.
Qed.

Lemma walk_features_needs_dependency da fa c :
  (fa = true -> da = true) ->
  existsb match_features c = false ->
  features_added (walk DEP FEATS false da fa c) = true ->
  dependency_added (walk DEP FEATS false da fa c) = true.
Proof.
  revert da fa. induction c as [|line c IH]; intros da fa Hinv Hc; simpl.
  - intros H. simpl in H. auto.
  - simpl in Hc. apply orb_false_iff in Hc as [Hline Hc].
    unfold emit, other_section. rewrite Hline.
    pattern_cases line; destruct da, fa; simpl;
      try (specialize (Hinv eq_refl); discriminate);
      intros H; apply IH in H; auto.
Qed.

(** *** Counting lines in the output *)

Lemma walk_count p fe da fa c :
  (fe = false -> existsb match_features c = false) ->
  count_lines p (new_lines (walk DEP FEATS fe da fa c))
  = count_lines p c
    + (if negb da && dependency_added (walk DEP FEATS fe da fa c)
       then count_lines p [DEP] else 0)
    + (if negb fa && features_added (walk DEP FEATS fe da fa c)
       then count_lines p FEATS
            + (if fe then 0 else count_lines p [nl; features_header_line])
       else 0).
Proof.
  revert da fa. induction c as [|line c IH]; intros da fa Hfe.
  - simpl. destruct da, fa; reflexivity.
  - assert (Hfe' : fe = false -> existsb match_features c = false).
    { intros E. specialize (Hfe E). simpl in Hfe.
      now apply orb_false_iff in Hfe. }
    assert (Hline : fe = false -> match_features line = false).
    { intros E. specialize (Hfe E). simpl in Hfe.
      now apply orb_false_iff in Hfe. }
    cbn [walk]. unfold emit, other_section.
    pattern_cases line; destruct da, fa, fe; cbn [andb negb orb];
      try (specialize (Hline eq_refl); discriminate);
      cbn [new_lines dependency_added features_added];
      repeat (rewrite ?count_lines_app, ?count_lines_cons);
      rewrite (IH _ _ Hfe'), ?walk_features_added_true,
        ?walk_dependency_added;
      cbn [andb negb orb];
      repeat (rewrite ?count_lines_app, ?count_lines_cons);
      change (count_lines p []) with 0;
      repeat match goal with
             | |- context [if ?b then _ else _] => destruct b
             end; lia.
Qed.

(** *** Filtering the output *)

Lemma walk_filter p fe da fa c :
  p DEP = false ->
  forallb (fun f => negb (p f)) FEATS = true ->
  fe = true \/ fa = true
  \/ (da = false /\ existsb match_dependencies c = false)
  \/ (p nl = false /\ p features_header_line = false) ->
  List.filter p (new_lines (walk DEP FEATS fe da fa c)) = List.filter p c.
Proof.
  intros Hdep Hfeats. apply filter_rejected in Hfeats.
  revert da fa. induction c as [|line c IH]; intros da fa Hsyn;
    [reflexivity|].
  cbn [walk]. unfold emit, other_section.
  pattern_cases line; destruct da, fa, fe; cbn [andb negb orb];
    cbn [new_lines dependency_added features_added];
    rewrite ?app_comm_cons, ?List.filter_app; simpl;
    rewrite ?Hdep, ?Hfeats; simpl;
    try (destruct (p line); simpl; rewrite IH; auto; fail);
    destruct Hsyn as [Hsyn|[Hsyn|[[Hda Hsyn]|[Hnl Hfh]]]];
    try discriminate;
    simpl in *; rewrite ?Emd in *; try discriminate;
    rewrite ?Hnl, ?Hfh; destruct (p line); simpl; rewrite IH; auto 6.
Qed.

(** *** The loop over a concatenation, and over lines that trigger
    nothing *)

Lemma walk_app fe da fa c1 c2 :
  walk DEP FEATS fe da fa (c1 ++ c2)
  = mkState
      (new_lines (walk DEP FEATS fe da fa c1)
       ++ new_lines (walk DEP FEATS fe (dependency_added (walk DEP FEATS fe da fa c1))
                       (features_added (walk DEP FEATS fe da fa c1)) c2))
      (dependency_added (walk DEP FEATS fe (dependency_added (walk DEP FEATS fe da fa c1))
                           (features_added (walk DEP FEATS fe da fa c1)) c2))
      (features_added (walk DEP FEATS fe (dependency_added (walk DEP FEATS fe da fa c1))
                         (features_added (walk DEP FEATS fe da fa c1)) c2)).
Proof.
  revert da fa. induction c1 as [|line c1 IH]; intros da fa; simpl.
  - now destruct (walk DEP FEATS fe da fa c2).
  - destruct (emit DEP FEATS fe da fa line) as [chunk [da' fa']].
    rewrite IH. simpl. now rewrite app_assoc.
Qed.

Lemma walk_dependencies_line fe fa d c :
  match_dependencies d = true ->
  walk DEP FEATS fe false fa (d :: c)
  = mkState (d :: DEP :: new_lines (walk DEP FEATS fe true fa c))
      (dependency_added (walk DEP FEATS fe true fa c))
      (features_added (walk DEP FEATS fe true fa c)).
Proof.
  intros Hd. cbn [walk]. unfold emit. rewrite Hd. reflexivity.
Qed.

Lemma walk_features_line fe da h c :
  match_features h = true ->
  walk DEP FEATS fe da false (h :: c)
  = (if match_dependencies h && negb da
     then walk DEP FEATS fe da false (h :: c)
     else mkState (h :: FEATS ++ new_lines (walk DEP FEATS fe da true c))
            (dependency_added (walk DEP FEATS fe da true c))
            (features_added (walk DEP FEATS fe da true c))).
Proof.
  intros Hh. destruct (match_dependencies h && negb da) eqn:E;
    [reflexivity|].
  cbn [walk]. unfold emit. rewrite E, Hh. reflexivity.
Qed.

Lemma walk_other_section_line h c :
  other_section h = true ->
  match_features h = false ->
  walk DEP FEATS false true false (h :: c)
  = mkState
      (nl :: features_header_line :: FEATS
       ++ h :: new_lines (walk DEP FEATS false true true c))
      (dependency_added (walk DEP FEATS false true true c))
      (features_added (walk DEP FEATS false true true c)).
Proof.
  intros Hh Hf. cbn [walk]. unfold emit.
  rewrite Hf, Hh, andb_false_r. cbn [andb negb].
  cbn [new_lines]. rewrite <- !app_comm_cons, <- app_assoc. reflexivity.
Qed.

Lemma walk_inert fe da fa c :
  da = true \/ existsb match_dependencies c = false ->
  fa = true \/ existsb match_features c = false ->
  fa = true \/ fe = true \/ da = false \/ existsb other_section c = false ->
  walk DEP FEATS fe da fa c = mkState c da fa.
Proof.
  induction c as [|line c IH]; intros Hd Hf Ho; [reflexivity|].
  assert (Hline :
    match_dependencies line && negb da = false
    /\ match_features line && negb fa = false
    /\ other_section line && (da && negb fe && negb fa) = false).
  { simpl in Hd, Hf, Ho. unfold other_section in *.
    destruct (match_dependencies line), (match_features line),
      (match_bracket line), da, fa, fe; simpl in *; intuition congruence. }
  destruct Hline as (H1 & H2 & H3).
  cbn [walk]. unfold emit. rewrite H1, H2, H3.
  rewrite IH; [reflexivity| | |].
  - destruct Hd as [Hd|Hd]; [now left|right].
    simpl in Hd. now apply orb_false_iff in Hd.
  - destruct Hf as [Hf|Hf]; [now left|right].
    simpl in Hf. now apply orb_false_iff in Hf.
  - destruct Ho as [Ho|[Ho|[Ho|Ho]]]; auto.
    simpl in Ho. apply orb_false_iff in Ho. tauto.
Qed.

End WalkFacts.

(** ** Facts about a whole run *)

Section RunFacts.

Variable DEP : string.
Variable FEATS : list string.
Hypothesis Hok : directive_ok DEP FEATS.

Local Abbreviation clean := (cleanup DEP FEATS).
Local Abbreviation has_dep := (existsb match_dependencies).
Local Abbreviation has_feat := (existsb match_features).

Lemma run_dependency_added lines :
  dependency_added (run DEP FEATS lines) = has_dep lines.
Proof using Hok.
  rewrite run_walk. unfold close.
  destruct (_ && _ && _); simpl;
    now rewrite walk_dependency_added, cleanup_keeps_dependencies.
Qed.

Lemma run_features_added lines :
  features_added (run DEP FEATS lines) = has_feat lines || has_dep lines.
Proof using Hok.
  rewrite run_walk, <- (cleanup_keeps_features DEP FEATS Hok lines),
    <- (cleanup_keeps_dependencies DEP FEATS Hok lines).
  set (c := clean lines). unfold close.
  rewrite walk_dependency_added. simpl.
  destruct (has_feat c) eqn:Ef.
  - destruct (has_dep c); simpl;
      now rewrite walk_features_added_header, Ef.
  - destruct (features_added (walk DEP FEATS false false false c)) eqn:Efa.
    + pose proof Efa as Hd.
      apply walk_features_needs_dependency in Hd; auto.
      rewrite walk_dependency_added in Hd. simpl in Hd.
      rewrite Hd. simpl. exact Efa.
    + destruct (has_dep c); simpl; [reflexivity|exact Efa].
Qed.

(** The output holds the cleaned lines and what the second pass adds:
    counted through any predicate [p]. *)
Lemma transform_count p lines :
  count_lines p (transform DEP FEATS lines)
  = count_lines p (clean lines)
    + (if has_dep lines then count_lines p [DEP] else 0)
    + (if has_feat lines || has_dep lines then count_lines p FEATS else 0)
    + (if has_dep lines && negb (has_feat lines)
       then count_lines p [nl; features_header_line] else 0).
Proof using Hok.
  unfold transform.
  pose proof (run_features_added lines) as Hfa.
  pose proof (run_dependency_added lines) as Hda.
  rewrite run_walk in *.
  rewrite <- (cleanup_keeps_features DEP FEATS Hok lines) in *.
  rewrite <- (cleanup_keeps_dependencies DEP FEATS Hok lines) in *.
  set (c := clean lines) in *.
  assert (Hcount := walk_count DEP FEATS p (has_feat c) false false c
                      (fun E => E)).
  destruct (walk DEP FEATS (has_feat c) false false c) as [out da fa].
  unfold close in *. simpl in *.
  destruct da, fa, (has_feat c), (has_dep c);
    simpl in *; try discriminate;
    repeat (rewrite ?count_lines_app, ?count_lines_cons);
    rewrite Hcount;
    repeat (rewrite ?count_lines_app, ?count_lines_cons);
    change (count_lines p []) with 0; lia.
Qed.

(** Lines that the second pass never adds come out as they went in. *)
Lemma transform_filter p lines :
  p DEP = false ->
  forallb (fun f => negb (p f)) FEATS = true ->
  has_feat lines = true \/ has_dep lines = false
  \/ (p nl = false /\ p features_header_line = false) ->
  List.filter p (transform DEP FEATS lines) = List.filter p (clean lines).
Proof using Hok.
  intros Hdep Hfeats Hsyn. unfold transform.
  pose proof (run_dependency_added lines) as Hda.
  rewrite run_walk in *.
  rewrite <- (cleanup_keeps_features DEP FEATS Hok lines) in Hsyn.
  rewrite <- (cleanup_keeps_dependencies DEP FEATS Hok lines) in Hsyn, Hda.
  set (c := clean lines) in *.
  assert (Hw : List.filter p
                 (new_lines (walk DEP FEATS (has_feat c) false false c))
               = List.filter p c).
  { apply walk_filter; auto.
    destruct Hsyn as [H|[H|H]]; auto. }
  unfold close in *. rewrite walk_dependency_added in *. simpl in *.
  destruct (has_dep c && negb (has_feat c) && negb _) eqn:Ec;
    [|exact Hw].
  simpl. rewrite List.filter_app, Hw.
  apply andb_true_iff in Ec as [Ec _]. apply andb_true_iff in Ec as [E1 E2].
  apply negb_true_iff in E2.
  destruct Hsyn as [H|[H|[Hnl Hfh]]]; try congruence.
  simpl. rewrite Hnl, Hfh, (filter_rejected p FEATS Hfeats).
  apply app_nil_r.
Qed.

(** *** Header patterns never hold of a directive line *)

Lemma header_pattern_dep (p : string -> bool) :
  (forall x, p x = true -> match_bracket x = true) -> p DEP = false.
Proof using Hok.
  intros Hp. destruct (p DEP) eqn:E; [|reflexivity].
  apply Hp in E. rewrite (dep_no_bracket _ _ Hok) in E. discriminate.
Qed.

Lemma header_pattern_feats (p : string -> bool) :
  (forall x, p x = true -> match_bracket x = true) ->
  forallb (fun f => negb (p f)) FEATS = true.
Proof using Hok.
  intros Hp. apply forallb_forall. intros f Hin.
  pose proof (feats_no_bracket _ _ Hok) as Hall.
  rewrite forallb_forall in Hall. apply Hall in Hin.
  apply negb_true_iff in Hin. apply negb_true_iff.
  destruct (p f) eqn:E; [|reflexivity]. apply Hp in E. congruence.
Qed.

Lemma existsb_cleanup_false (p : string -> bool) l :
  existsb p l = false -> existsb p (clean l) = false.
Proof.
  induction l as [|x l IH]; simpl; [auto|].
  intros H. apply orb_false_iff in H as [Hx Hl].
  destruct (is_directive DEP FEATS x); simpl; [auto|].
  rewrite Hx. auto.
Qed.

Lemma cleanup_app l1 l2 : clean (l1 ++ l2) = clean l1 ++ clean l2.
Proof. apply List.filter_app. Qed.

Lemma cleanup_header x l :
  match_bracket x = true -> clean (x :: l) = x :: clean l.
Proof using Hok.
  intros Hx. unfold cleanup. simpl.
  destruct (is_directive DEP FEATS x) eqn:E; [|reflexivity].
  apply (directive_no_bracket DEP FEATS Hok) in E. congruence.
Qed.

Lemma cleanup_idempotent l : clean (clean l) = clean l.
Proof.
  unfold cleanup. induction l as [|x l IH]; simpl; [reflexivity|].
  destruct (is_directive DEP FEATS x) eqn:E; simpl; [exact IH|].
  rewrite E. simpl. now rewrite IH.
Qed.

(** *** Without a dependencies header *)

Lemma walk_without_dependencies fe c :
  has_dep c = false ->
  walk DEP FEATS fe false false c
  = mkState (insert_after_first match_features FEATS c) false (has_feat c).
Proof.
  induction c as [|line c IH]; intros Hc; [reflexivity|].
  simpl in Hc. apply orb_false_iff in Hc as [Hline Hc].
  cbn [walk]. unfold emit. rewrite Hline. simpl.
  destruct (match_features line) eqn:Emf; simpl.
  - rewrite walk_inert; auto.
  - rewrite andb_false_r, IH; auto.
Qed.

Lemma transform_without_dependencies lines :
  has_dep lines = false ->
  transform DEP FEATS lines
  = insert_after_first match_features FEATS (clean lines).
Proof using Hok.
  intros Hd. unfold transform. rewrite run_walk.
  rewrite walk_without_dependencies by now apply existsb_cleanup_false.
  reflexivity.
Qed.

(** *** A features section synthesized in front of the next section *)

Lemma transform_synthesizes pre d mid h post :
  has_dep pre = false ->
  match_dependencies d = true ->
  existsb other_section mid = false ->
  other_section h = true ->
  has_feat (pre ++ d :: mid ++ h :: post) = false ->
  transform DEP FEATS (pre ++ d :: mid ++ h :: post)
  = clean pre ++ d :: DEP :: clean mid
    ++ nl :: features_header_line :: FEATS ++ h :: clean post.
Proof using Hok.
  intros Hpre Hd Hmid Hh Hfeat.
  assert (Hhb : match_bracket h = true /\ match_dependencies h = false).
  { unfold other_section in Hh. apply andb_true_iff in Hh as [H1 H2].
    now apply negb_true_iff in H2. }
  destruct Hhb as [Hhb Hhd].
  pose proof Hfeat as Hfc.
  rewrite <- (cleanup_keeps_features DEP FEATS Hok) in Hfc.
  rewrite cleanup_app, cleanup_header, cleanup_app, cleanup_header in Hfc
    by auto using match_dependencies_bracket.
  unfold transform. rewrite run_walk.
  rewrite cleanup_app, cleanup_header, cleanup_app, cleanup_header
    by auto using match_dependencies_bracket.
  rewrite Hfc.
  rewrite existsb_app in Hfc. apply orb_false_iff in Hfc as [Hf1 Hfc].
  simpl in Hfc. apply orb_false_iff in Hfc as [Hfd Hfc].
  rewrite existsb_app in Hfc. apply orb_false_iff in Hfc as [Hf2 Hfc].
  simpl in Hfc. apply orb_false_iff in Hfc as [Hfh Hf3].
  rewrite walk_app, (walk_inert DEP FEATS false false false (clean pre))
    by auto using existsb_cleanup_false.
  cbn [new_lines dependency_added features_added].
  rewrite walk_dependencies_line by assumption.
  rewrite walk_app, (walk_inert DEP FEATS false true false (clean mid))
    by auto 6 using existsb_cleanup_false.
  cbn [new_lines dependency_added features_added].
  rewrite walk_other_section_line by assumption.
  rewrite walk_inert by auto.
  unfold close. cbn [new_lines dependency_added features_added andb negb].
  reflexivity.
Qed.

(** *** The feature block follows the first features header *)

Lemma transform_block lines :
  has_feat lines = true \/ has_dep lines = true ->
  exists pre h post,
    transform DEP FEATS lines = pre ++ h :: FEATS ++ post
    /\ match_features h = true
    /\ has_feat pre = false.
Proof using Hok.
  intros Hsome. unfold transform. rewrite run_walk.
  rewrite <- (cleanup_keeps_features DEP FEATS Hok) in Hsome.
  rewrite <- (cleanup_keeps_dependencies DEP FEATS Hok) in Hsome.
  set (c := clean lines) in *.
  destruct (split_at_first match_features c)
    as [Hnf|(c1 & h & c2 & Ec & Hc1 & Hh)].
  - (* no features header: the section is synthesized *)
    rewrite Hnf in *. destruct Hsome as [Hs|Hs]; [discriminate|].
    destruct (split_at_first match_dependencies c)
      as [Hnd|(c1 & d & c2 & Ec & Hc1 & Hd)]; [congruence|].
    rewrite Ec in Hnf. rewrite existsb_app in Hnf.
    apply orb_false_iff in Hnf as [Hf1 Hnf]. simpl in Hnf.
    apply orb_false_iff in Hnf as [Hfd Hf2].
    rewrite Ec, walk_app, (walk_inert DEP FEATS false false false c1)
      by auto.
    cbn [new_lines dependency_added features_added].
    rewrite walk_dependencies_line by assumption.
    assert (Hdep : match_features DEP = false)
      by (apply header_pattern_dep, match_features_bracket).
    destruct (split_at_first other_section c2)
      as [Hno|(m & h & q & Ec2 & Hm & Hh)].
    + rewrite walk_inert by auto.
      unfold close.
      cbn [new_lines dependency_added features_added andb negb].
      exists (c1 ++ [d; DEP] ++ c2 ++ [nl]), features_header_line, [].
      repeat split.
      * rewrite app_nil_r. simpl. rewrite <- ?app_assoc. simpl.
        rewrite <- ?app_assoc. reflexivity.
      * rewrite !existsb_app. simpl. now rewrite Hf1, Hfd, Hdep, Hf2.
    + rewrite Ec2 in Hf2. rewrite existsb_app in Hf2.
      apply orb_false_iff in Hf2 as [Hfm Hf2]. simpl in Hf2.
      apply orb_false_iff in Hf2 as [Hfh Hfq].
      assert (Hhd : match_dependencies h = false).
      { unfold other_section in Hh. apply andb_true_iff in Hh as [_ H2].
        now apply negb_true_iff in H2. }
      rewrite Ec2, walk_app, (walk_inert DEP FEATS false true false m)
        by auto 6.
      cbn [new_lines dependency_added features_added].
      rewrite walk_other_section_line by assumption.
      rewrite walk_inert by auto.
      unfold close.
      cbn [new_lines dependency_added features_added andb negb].
      exists (c1 ++ [d; DEP] ++ m ++ [nl]), features_header_line, (h :: q).
      repeat split.
      * simpl. rewrite <- ?app_assoc. simpl.
        rewrite <- ?app_assoc. reflexivity.
      * rewrite !existsb_app. simpl. now rewrite Hf1, Hfd, Hdep, Hfm.
  - (* a features header: the block goes after the first one *)
    assert (Hfe : has_feat c = true).
    { rewrite Ec, existsb_app. simpl. rewrite Hh. apply orb_true_iff.
      right. reflexivity. }
    rewrite Hfe. rewrite Ec, walk_app.
    set (r1 := walk DEP FEATS true false false c1).
    assert (Hfa : features_added r1 = false).
    { subst r1. rewrite walk_features_added_header. exact Hc1. }
    assert (Hhd : match_dependencies h = false).
    { destruct (match_dependencies h) eqn:E; [|reflexivity].
      apply match_dependencies_not_features in E. congruence. }
    rewrite Hfa, walk_features_line, Hhd by assumption.
    cbn [new_lines dependency_added features_added andb].
    unfold close. rewrite andb_false_r.
    eexists (new_lines r1), h, _. split; [|split; [assumption|]].
    + cbn [new_lines]. reflexivity.
    + apply count_lines_zero. unfold count_lines. subst r1.
      rewrite walk_filter; auto.
      * apply count_lines_zero in Hc1. exact Hc1.
      * apply header_pattern_dep, match_features_bracket.
      * apply header_pattern_feats, match_features_bracket.
Qed.

(** *** Running the script again *)

Lemma transform_keeps_dependencies lines :
  has_dep (transform DEP FEATS lines) = has_dep lines.
Proof using Hok.
  assert (Hc : count_lines match_dependencies (transform DEP FEATS lines)
               = count_lines match_dependencies (clean lines)).
  { unfold count_lines. rewrite transform_filter; auto.
    - apply header_pattern_dep, match_dependencies_bracket.
    - apply header_pattern_feats, match_dependencies_bracket. }
  rewrite <- (cleanup_keeps_dependencies DEP FEATS Hok lines).
  pose proof (existsb_count_pos match_dependencies
                (transform DEP FEATS lines)) as H1.
  pose proof (existsb_count_pos match_dependencies (clean lines)) as H2.
  rewrite Hc in H1.
  destruct (has_dep (transform DEP FEATS lines)), (has_dep (clean lines));
    try reflexivity.
  - symmetry. apply H2, H1. reflexivity.
  - apply H1, H2. reflexivity.
Qed.

Lemma transform_has_features lines :
  has_feat (transform DEP FEATS lines) = has_feat lines || has_dep lines.
Proof using Hok.
  pose proof (transform_count match_features lines) as Hc.
  rewrite (count_rejected match_features FEATS) in Hc
    by apply header_pattern_feats, match_features_bracket.
  rewrite !count_lines_cons in Hc.
  rewrite (header_pattern_dep match_features match_features_bracket) in Hc.
  change (count_lines match_features []) with 0 in Hc.
  change (match_features nl) with false in Hc.
  change (match_features features_header_line) with true in Hc.
  pose proof (existsb_count_pos match_features
                (transform DEP FEATS lines)) as H1.
  pose proof (existsb_count_pos match_features (clean lines)) as H2.
  rewrite (cleanup_keeps_features DEP FEATS Hok) in H2.
  destruct (has_feat (transform DEP FEATS lines)), (has_feat lines),
    (has_dep lines); simpl in *; try reflexivity; exfalso;
    destruct (count_lines match_features (clean lines)),
      (count_lines match_features (transform DEP FEATS lines));
    intuition (try lia; try discriminate; try reflexivity).
Qed.

(** On a manifest with a features header, or without a dependencies
    header, the second pass adds directive lines only: cleaning the output
    gives the cleaned input back, and a second run repeats the first. *)
Lemma cleanup_transform lines :
  has_feat lines = true \/ has_dep lines = false ->
  clean (transform DEP FEATS lines) = clean lines.
Proof using Hok.
  intros Hst. transitivity (clean (clean lines));
    [|apply cleanup_idempotent].
  unfold cleanup at 1 2. apply transform_filter; auto.
  - now rewrite dep_is_directive.
  - apply forallb_forall. intros f Hin.
    now rewrite feature_is_directive.
  - tauto.
Qed.

Lemma run_again lines :
  has_feat lines = true \/ has_dep lines = false ->
  run DEP FEATS (transform DEP FEATS lines) = run DEP FEATS lines.
Proof using Hok.
  intros Hst. rewrite !run_walk, cleanup_transform by assumption.
  reflexivity.
Qed.

Lemma transform_settles lines :
  has_feat (transform DEP FEATS lines) = true
  \/ has_dep (transform DEP FEATS lines) = false.
Proof using Hok.
  rewrite transform_has_features, transform_keeps_dependencies.
  destruct (has_dep lines); [left|right]; auto using orb_true_r.
Qed.

Lemma transform_twice_fixed lines :
  transform DEP FEATS (transform DEP FEATS (transform DEP FEATS lines))
  = transform DEP FEATS (transform DEP FEATS lines).
Proof using Hok.
  change (new_lines (run DEP FEATS
                       (transform DEP FEATS (transform DEP FEATS lines)))
          = new_lines (run DEP FEATS (transform DEP FEATS lines))).
  f_equal. apply run_again, transform_settles.
Qed.

End RunFacts.

(** ** Directive lines and the cleanup pass *)

Section CleanupFacts.

Variable DEP : string.
Variable FEATS : list string.
Hypothesis Hok : directive_ok DEP FEATS.

Local Abbreviation clean := (cleanup DEP FEATS).

Lemma filter_cleanup (p : string -> bool) l :
  (forall x, p x = true -> is_directive DEP FEATS x = false) ->
  List.filter p (clean l) = List.filter p l.
Proof.
  intros Hp. unfold cleanup.
  induction l as [|x l IH]; simpl; [reflexivity|].
  destruct (is_directive DEP FEATS x) eqn:E; simpl.
  - destruct (p x) eqn:Ep; [|exact IH].
    apply Hp in Ep. congruence.
  - now rewrite IH.
Qed.

Lemma count_cleanup_directive (p : string -> bool) l :
  (forall x, p x = true -> is_directive DEP FEATS x = true) ->
  count_lines p (clean l) = 0.
Proof.
  intros Hp. apply count_lines_zero. unfold cleanup.
  induction l as [|x l IH]; simpl; [reflexivity|].
  destruct (is_directive DEP FEATS x) eqn:E; simpl; [exact IH|].
  rewrite IH, orb_false_r.
  destruct (p x) eqn:Ep; [|reflexivity]. apply Hp in Ep. congruence.
Qed.

Lemma eqb_directive d x :
  is_directive DEP FEATS d = true ->
  String.eqb d x = true -> is_directive DEP FEATS x = true.
Proof. intros Hd Hx. apply String.eqb_eq in Hx. now subst. Qed.

(** Features headers in the output: those of the input, and the
    synthesized one. *)
Lemma transform_features_headers lines :
  count_lines match_features (transform DEP FEATS lines)
  = count_lines match_features lines
    + (if existsb match_dependencies lines
          && negb (existsb match_features lines)
       then 1 else 0).
Proof using Hok.
  rewrite (transform_count DEP FEATS Hok).
  rewrite (count_rejected match_features FEATS)
    by (apply (header_pattern_feats DEP FEATS Hok);
        auto using match_features_bracket).
  rewrite !count_lines_cons.
  rewrite (header_pattern_dep DEP FEATS Hok match_features
             match_features_bracket).
  change (count_lines match_features []) with 0.
  change (match_features nl) with false.
  change (match_features features_header_line) with true.
  unfold count_lines at 1. rewrite filter_cleanup.
  - fold (count_lines match_features lines).
    destruct (existsb match_features lines),
      (existsb match_dependencies lines); simpl; lia.
  - intros x Hx. destruct (is_directive DEP FEATS x) eqn:E; [|reflexivity].
    apply (directive_no_bracket DEP FEATS Hok) in E.
    apply match_features_bracket in Hx. congruence.
Qed.


(** Copies of the dependency line in the output: the one the second pass
    inserts. *)
Lemma transform_dependency_lines lines :
  count_lines (String.eqb DEP) (transform DEP FEATS lines)
  = if existsb match_dependencies lines then 1 else 0.
Proof using Hok.
  assert (Hnl : String.eqb DEP nl = false).
  { destruct (String.eqb DEP nl) eqn:E; [|reflexivity].
    apply String.eqb_eq in E.
    pose proof (blank_is_feature _ _ Hok) as Hb.
    rewrite <- E, (dep_not_feature _ _ Hok) in Hb. discriminate. }
  assert (Hfh : String.eqb DEP features_header_line = false).
  { destruct (String.eqb DEP features_header_line) eqn:E; [|reflexivity].
    apply String.eqb_eq in E.
    pose proof (dep_no_bracket _ _ Hok) as Hb. rewrite E in Hb.
    discriminate. }
  rewrite (transform_count DEP FEATS Hok), count_cleanup_directive.
  - rewrite !count_lines_cons, String.eqb_refl, Hnl, Hfh.
    rewrite (proj2 (count_lines_zero _ FEATS) (dep_not_feature _ _ Hok)).
    change (count_lines (String.eqb DEP) []) with 0.
    destruct (existsb match_dependencies lines),
      (existsb match_features lines); reflexivity.
  - intros x Hx. eapply eqb_directive; [apply dep_is_directive|exact Hx].
Qed.

End CleanupFacts.

(** ** The two scripts as instances *)

Lemma fold_left_ext {A B} (f g : A -> B -> A) l a :
  (forall x y, f x y = g x y) -> fold_left f l a = fold_left g l a.
Proof.
  intros Hfg. revert a. induction l as [|y l IH]; intros a; simpl;
    [reflexivity|]. now rewrite Hfg, IH.
Qed.

Lemma hotpath_ok : directive_ok Hotpath.DEPENDENCY_LINE Hotpath.FEATURE_LINES.
Proof. split; vm_compute; reflexivity. Qed.

Lemma channels_console_ok :
  directive_ok ChannelsConsole.DEPENDENCY_LINE [ChannelsConsole.FEATURE_LINE].
Proof. split; vm_compute; reflexivity. Qed.

Lemma channels_console_first_pass lines :
  ChannelsConsole.first_pass lines
  = first_pass ChannelsConsole.DEPENDENCY_LINE [ChannelsConsole.FEATURE_LINE]
      lines.
Proof.
  unfold ChannelsConsole.first_pass, first_pass. apply fold_left_ext.
  intros [fe acc] line. unfold ChannelsConsole.first_pass_step,
    first_pass_step, is_directive. simpl. now rewrite orb_false_r.
Qed.

Lemma channels_console_run lines :
  ChannelsConsole.run lines
  = run ChannelsConsole.DEPENDENCY_LINE [ChannelsConsole.FEATURE_LINE] lines.
Proof.
  unfold ChannelsConsole.run, run. rewrite channels_console_first_pass.
  destruct (first_pass _ _ lines) as [fe c].
  reflexivity.
Qed.

Lemma script_ok s : directive_ok (dependency_line s) (feature_lines s).
Proof. destruct s; [apply hotpath_ok|apply channels_console_ok]. Qed.

Lemma run_of_generic s lines :
  run_of s lines = run (dependency_line s) (feature_lines s) lines.
Proof. destruct s; [reflexivity|apply channels_console_run]. Qed.

Lemma transform_of_generic s lines :
  transform_of s lines
  = transform (dependency_line s) (feature_lines s) lines.
Proof. unfold transform_of, transform. now rewrite run_of_generic. Qed.

Lemma cleanup_of_generic s lines :
  cleanup_of s lines = cleanup (dependency_line s) (feature_lines s) lines.
Proof.
  destruct s; unfold cleanup_of.
  - now rewrite first_pass_cleanup.
  - now rewrite channels_console_first_pass, first_pass_cleanup.
Qed.

(** * The properties of the scripts *)

(** C3. Dependency uniqueness: the output holds exactly one line equal to
    the dependency line when some input line starts with [[dependencies]],
    and none otherwise, however many copies the input held. *)
Theorem dependency_line_once (s : script) (lines : list string) :
  count_lines (String.eqb (dependency_line s)) (transform_of s lines)
  = if existsb match_dependencies lines then 1 else 0.
Proof.
  rewrite transform_of_generic.
  apply transform_dependency_lines, script_ok.
Qed.

(** C6. Pass-through: the input lines that start no section and equal no
    directive line are found in the output verbatim and in their original
    order; as a subsequence they are the same in the output and the input. *)
Theorem unrelated_lines_pass_through (s : script) (lines : list string) :
  List.filter (unrelated s) (transform_of s lines)
  = List.filter (unrelated s) lines.
Proof.
  pose proof (script_ok s) as Hok.
  rewrite transform_of_generic.
  rewrite (transform_filter _ _ Hok).
  - apply filter_cleanup. intros x Hx. unfold unrelated in Hx.
    apply andb_true_iff in Hx as [_ Hx]. now apply negb_true_iff in Hx.
  - unfold unrelated. now rewrite dep_is_directive, andb_false_r.
  - apply forallb_forall. intros f Hin. unfold unrelated.
    now rewrite feature_is_directive, andb_false_r.
  - right. right. unfold unrelated.
    rewrite (blank_is_directive _ _ Hok). now rewrite andb_false_r.
Qed.

(** C7. Blank lines: the cleanup pass leaves no blank line, and the blank
    lines of the output are those of the inserted feature block, plus the
    one in front of a synthesized features section. *)
Theorem blank_lines_are_inserted (s : script) (lines : list string) :
  count_lines (String.eqb nl) (cleanup_of s lines) = 0
  /\ count_lines (String.eqb nl) (transform_of s lines)
     = (if existsb match_features lines || existsb match_dependencies lines
        then count_lines (String.eqb nl) (feature_lines s) else 0)
       + (if existsb match_dependencies lines
             && negb (existsb match_features lines)
          then 1 else 0).
Proof.
  pose proof (script_ok s) as Hok.
  assert (Hclean : count_lines (String.eqb nl)
                     (cleanup (dependency_line s) (feature_lines s) lines) = 0).
  { apply count_cleanup_directive. intros x Hx.
    eapply eqb_directive; [apply (blank_is_directive _ _ Hok)|exact Hx]. }
  split.
  - now rewrite cleanup_of_generic.
  - rewrite transform_of_generic, (transform_count _ _ Hok), Hclean.
    assert (Hdep : count_lines (String.eqb nl) [dependency_line s] = 0)
      by (destruct s; reflexivity).
    rewrite Hdep.
    change (count_lines (String.eqb nl) [nl; features_header_line]) with 1.
    destruct (existsb match_dependencies lines),
      (existsb match_features lines); simpl; lia.
Qed.

(** C10. Two runs reach a fixed point: a third run returns the lines of
    the second. *)
Theorem transform_fixed_after_two (s : script) (lines : list string) :
  transform_of s (transform_of s (transform_of s lines))
  = transform_of s (transform_of s lines).
Proof.
  rewrite !transform_of_generic.
  apply transform_twice_fixed, script_ok.
Qed.

(** C1. Idempotence fails on [dependencies_only]: the first run appends a
    blank line, the features header and the feature block; the second run
    strips the blank line with the other directive lines, finds the features
    header in place and does not put the blank line back.  The lines of the
    first run are the lines read back from the file it wrote. *)
Theorem second_run_differs (s : script) :
  transform_of s dependencies_only
  = [ln "[dependencies]"; dependency_line s; nl; features_header_line]
    ++ feature_lines s
  /\ readlines (writelines (transform_of s dependencies_only))
     = transform_of s dependencies_only
  /\ transform_of s (transform_of s dependencies_only)
     = [ln "[dependencies]"; dependency_line s; features_header_line]
       ++ feature_lines s
  /\ transform_of s (transform_of s dependencies_only)
     <> transform_of s dependencies_only.
Proof. destruct s; vm_compute; repeat split; discriminate. Qed.

(** Where a second run does repeat the first: on a manifest with a features
    header, or without a dependencies header. *)
Lemma transform_idempotent_when_settled (s : script) (lines : list string) :
  existsb match_features lines = true
  \/ existsb match_dependencies lines = false ->
  transform_of s (transform_of s lines) = transform_of s lines.
Proof.
  intros H. rewrite !transform_of_generic.
  change (new_lines (run (dependency_line s) (feature_lines s)
                       (transform (dependency_line s) (feature_lines s) lines))
          = new_lines (run (dependency_line s) (feature_lines s) lines)).
  f_equal. apply run_again; [apply script_ok|assumption].
Qed.

(** C2, as stated, fails on [features_only]: no line starts with
    [[dependencies]], and yet the output is more than the cleaned input. *)
Lemma features_inserted_without_dependencies :
  existsb match_dependencies features_only = false
  /\ transform_of add_hotpath features_only
     <> cleanup_of add_hotpath features_only.
Proof. vm_compute. split; [reflexivity|discriminate]. Qed.

(** C2, amended. Without a dependencies header the dependency line is not
    inserted and no features section is synthesized: the output is the
    cleaned input with the feature block right after its first features
    header, and the cleaned input itself when it has no features header. *)
Theorem without_dependencies_header (s : script) (lines : list string) :
  existsb match_dependencies lines = false ->
  transform_of s lines
  = insert_after_first match_features (feature_lines s) (cleanup_of s lines)
  /\ count_lines (String.eqb (dependency_line s)) (transform_of s lines) = 0
  /\ count_lines match_features (transform_of s lines)
     = count_lines match_features lines
  /\ (existsb match_features lines = false ->
      transform_of s lines = cleanup_of s lines).
Proof.
  intros Hd. pose proof (script_ok s) as Hok.
  assert (Hins : transform_of s lines
                 = insert_after_first match_features (feature_lines s)
                     (cleanup_of s lines)).
  { rewrite transform_of_generic, cleanup_of_generic.
    now apply transform_without_dependencies. }
  split; [exact Hins|]. split; [|split].
  - rewrite transform_of_generic, (transform_dependency_lines _ _ Hok).
    now rewrite Hd.
  - rewrite transform_of_generic, (transform_features_headers _ _ Hok), Hd.
    simpl. lia.
  - intros Hf. rewrite Hins, cleanup_of_generic.
    rewrite <- (cleanup_keeps_features _ _ Hok) in Hf.
    induction (cleanup (dependency_line s) (feature_lines s) lines)
      as [|x l IH]; simpl in *; [reflexivity|].
    apply orb_false_iff in Hf as [Hx Hl]. rewrite Hx. now rewrite IH.
Qed.

Lemma without_dependencies_header_witness :
  existsb match_dependencies features_only = false
  /\ transform_of add_hotpath features_only
     = insert_after_first match_features (feature_lines add_hotpath)
         (cleanup_of add_hotpath features_only).
Proof.
  split; [reflexivity|].
  apply (without_dependencies_header add_hotpath features_only).
  reflexivity.
Defined.

(** C4, as stated, fails on [package_only]: the output has no features
    header at all. *)
Lemma no_features_section_without_headers :
  count_lines match_features (transform_of add_hotpath package_only) <> 1.
Proof. vm_compute. discriminate. Qed.

(** C4, amended. When the input has exactly one features header, or none
    but a dependencies header, the output has exactly one features header,
    and the feature block stands unmodified, contiguous and in order right
    after it. *)
Theorem features_section_once (s : script) (lines : list string) :
  count_lines match_features lines = 1
  \/ (count_lines match_features lines = 0
      /\ existsb match_dependencies lines = true) ->
  count_lines match_features (transform_of s lines) = 1
  /\ exists pre h post,
       transform_of s lines = pre ++ h :: feature_lines s ++ post
       /\ match_features h = true
       /\ existsb match_features pre = false.
Proof.
  intros H. pose proof (script_ok s) as Hok.
  rewrite transform_of_generic. split.
  - rewrite (transform_features_headers _ _ Hok).
    destruct H as [H|[H Hd]].
    + assert (Hf : existsb match_features lines = true)
        by (apply existsb_count_pos; lia).
      rewrite Hf, andb_false_r. lia.
    + apply count_lines_zero in H as Hf. rewrite Hf, Hd, H. reflexivity.
  - apply (transform_block _ _ Hok).
    destruct H as [H|[_ Hd]]; [left|now right].
    apply existsb_count_pos. lia.
Qed.

Lemma features_section_once_witness :
  (count_lines match_features dependencies_only = 1
   \/ (count_lines match_features dependencies_only = 0
       /\ existsb match_dependencies dependencies_only = true))
  /\ count_lines match_features (transform_of add_hotpath dependencies_only)
     = 1.
Proof.
  assert (H : count_lines match_features dependencies_only = 1
              \/ (count_lines match_features dependencies_only = 0
                  /\ existsb match_dependencies dependencies_only = true))
    by (right; split; reflexivity).
  split; [exact H|].
  apply (features_section_once add_hotpath dependencies_only H).
Defined.

(** C5. Header placement: [d] is the first dependencies header, [h] the
    first other section header after it, and no line is a features header.
    The synthesized features section (blank line, header, feature block)
    stands right in front of [h]: after the dependencies section and before
    every section that followed it. *)
Theorem features_section_before_next_section (s : script)
    (pre : list string) (d : string) (mid : list string) (h : string)
    (post : list string) :
  existsb match_dependencies pre = false ->
  match_dependencies d = true ->
  existsb other_section mid = false ->
  other_section h = true ->
  existsb match_features (pre ++ d :: mid ++ h :: post) = false ->
  transform_of s (pre ++ d :: mid ++ h :: post)
  = cleanup_of s pre ++ d :: dependency_line s :: cleanup_of s mid
    ++ nl :: features_header_line :: feature_lines s
    ++ h :: cleanup_of s post.
Proof.
  intros Hpre Hd Hmid Hh Hf.
  rewrite transform_of_generic, !cleanup_of_generic.
  now apply transform_synthesizes; [apply script_ok| | | | |].
Qed.

Lemma features_section_before_next_section_witness :
  transform_of add_hotpath
    ([ln "[package]"]
     ++ ln "[dependencies]"
     :: [ln "foo = 1"; nl] ++ ln "[dev-dependencies]" :: [ln "bar = 2"])
  = [ ln "[package]"; ln "[dependencies]"; Hotpath.DEPENDENCY_LINE;
      ln "foo = 1"; nl; ln "[features]" ]
    ++ Hotpath.FEATURE_LINES ++ [ln "[dev-dependencies]"; ln "bar = 2"].
Proof.
  apply (features_section_before_next_section add_hotpath
           [ln "[package]"] (ln "[dependencies]") [ln "foo = 1"; nl]
           (ln "[dev-dependencies]") [ln "bar = 2"]);
    reflexivity.
Defined.

(** ** Writing back and reporting *)



(** On a platform whose [os.linesep] is ['\n'] text mode writes the text
    as it is. *)
Lemma newline_out_nl (text : string) : newline_out nl text = text.
Proof.
  induction text as [|c text IH]; [reflexivity|].
  cbn [newline_out]. destruct (Ascii.eqb c "010") eqn:Ec.
  - apply Ascii.eqb_eq in Ec. subst c. rewrite IH. reflexivity.
  - now rewrite IH.
Qed.

(** ** The missing base directory *)

(** C9. When nothing exists at [crates/], [main] prints the diagnostic and
    returns: the trace holds that one line and no read or write, the file
    system is as it was, and the exit status is 0. *)
Theorem main_without_crates_dir (s : script) (script_dir : path) (w : world) :
  entries w !! (script_dir ++ ["crates"]) = None ->
  main s script_dir w
  = Returned w [EvPrint (DoesNotExist (script_dir ++ ["crates"]))]
  /\ world_of (main s script_dir w) = w
  /\ Forall (fun e => exists m, e = EvPrint m) (trace_of (main s script_dir w))
  /\ exit_status (main s script_dir w) = 0.
Proof.
  intros Hdir. unfold main, path_exists. rewrite Hdir. simpl.
  repeat split. constructor; [eauto|constructor].
Qed.

Lemma main_without_crates_dir_witness :
  entries bare_world !! (["repo"] ++ ["crates"]) = None
  /\ main add_hotpath ["repo"] bare_world
     = Returned bare_world [EvPrint (DoesNotExist ["repo"; "crates"])].
Proof.
  assert (H : entries bare_world !! (["repo"] ++ ["crates"]) = None)
    by (vm_compute; reflexivity).
  split; [exact H|].
  apply (main_without_crates_dir add_hotpath ["repo"] bare_world H).
Defined.

(** * More of the scripts: texts, whole runs, and how runs compose *)

(** ** Reading and writing lines *)

Lemma append_cons c (s t : string) :
  String.append (String c s) t = String c (String.append s t).
Proof. reflexivity. Qed.

Lemma append_empty_r (s : string) : String.append s "" = s.
Proof.
  induction s as [|c s IH]; [reflexivity|]. now rewrite append_cons, IH.
Qed.

Lemma append_assoc (a b c : string) :
  String.append (String.append a b) c = String.append a (String.append b c).
Proof.
  induction a as [|x a IH]; [reflexivity|]. now rewrite !append_cons, IH.
Qed.

Lemma writelines_cons line lines :
  writelines (line :: lines) = String.append line (writelines lines).
Proof.
  unfold writelines. destruct lines as [|l ls].
  - symmetry. apply append_empty_r.
  - reflexivity.
Qed.

Lemma writelines_app l1 l2 :
  writelines (l1 ++ l2) = String.append (writelines l1) (writelines l2).
Proof.
  induction l1 as [|x l1 IH]; [reflexivity|].
  rewrite <- app_comm_cons, !writelines_cons, IH, append_assoc. reflexivity.
Qed.


Lemma readlines_terminated_line line text :
  terminated line = true ->
  readlines (String.append line text) = line :: readlines text.
Proof.
  induction line as [|c line IH]; [discriminate|].
  rewrite append_cons. cbn [terminated readlines].
  destruct (Ascii.eqb c "010") eqn:Ec.
  - intros E. apply String.eqb_eq in E. subst line. reflexivity.
  - intros Ht. rewrite (IH Ht). reflexivity.
Qed.

Lemma readlines_writelines_id lines :
  forallb terminated lines = true -> readlines (writelines lines) = lines.
Proof.
  induction lines as [|l lines IH]; [reflexivity|].
  cbn [forallb]. intros H. apply andb_true_iff in H as [Hl Hr].
  rewrite writelines_cons, readlines_terminated_line, IH by assumption.
  reflexivity.
Qed.

Lemma readlines_empty text : readlines text = [] -> text = EmptyString.
Proof.
  destruct text as [|c text]; [reflexivity|]. cbn [readlines].
  destruct (Ascii.eqb c "010"); [discriminate|].
  destruct (readlines text); discriminate.
Qed.

Lemma readlines_all_terminated text :
  ends_with_newline text = true ->
  forallb terminated (readlines text) = true.
Proof.
  induction text as [|c text IH]; [reflexivity|].
  intros H. cbn [readlines].
  destruct (Ascii.eqb c "010") eqn:Ec.
  - cbn [forallb terminated]. rewrite Ec. simpl.
    destruct text; [reflexivity|]. apply IH. exact H.
  - destruct text as [|c' text']; [simpl in H; congruence|].
    specialize (IH H).
    destruct (readlines (String c' text')) as [|l ls] eqn:El.
    + apply readlines_empty in El. discriminate.
    + cbn [forallb terminated] in *. now rewrite Ec.
Qed.

(** ** Where the lines of the output come from *)

Lemma count_occ_count_lines (l : list string) (x : string) :
  count_occ string_dec l x = count_lines (String.eqb x) l.
Proof.
  induction l as [|y l IH]; [reflexivity|].
  rewrite count_lines_cons. cbn [count_occ].
  destruct (string_dec y x) as [->|Hne].
  - rewrite String.eqb_refl, IH. reflexivity.
  - assert (E : String.eqb x y = false)
      by (apply String.eqb_neq; congruence).
    rewrite E, IH. reflexivity.
Qed.

Section Provenance.

Variable DEP : string.
Variable FEATS : list string.
Hypothesis Hok : directive_ok DEP FEATS.

(** The cleaned lines are found in the output of the loop, in their
    order. *)
Lemma walk_sublist fe da fa c :
  c `sublist_of` new_lines (walk DEP FEATS fe da fa c).
Proof.
  revert da fa. induction c as [|line c IH]; intros da fa.
  - constructor.
  - cbn [walk]. unfold emit.
    destruct (match_dependencies line && negb da);
      [|destruct (match_features line && negb fa);
        [|destruct (other_section line && (da && negb fe && negb fa))]];
      cbn [new_lines].
    + simpl. apply sublist_skip, sublist_cons, IH.
    + simpl. apply sublist_skip, sublist_inserts_l, IH.
    + simpl. rewrite <- app_assoc.
      apply sublist_cons, sublist_cons, sublist_inserts_l.
      simpl. apply sublist_skip, IH.
    + simpl. apply sublist_skip, IH.
Qed.

Lemma transform_sublist lines :
  cleanup DEP FEATS lines `sublist_of` transform DEP FEATS lines.
Proof.
  unfold transform. rewrite run_walk. unfold close.
  destruct (_ && _ && _); cbn [new_lines].
  - apply sublist_inserts_r, walk_sublist.
  - apply walk_sublist.
Qed.

(** As a collection of lines the output is the cleaned input and what the
    second pass adds. *)
Lemma transform_permutation lines :
  Permutation (transform DEP FEATS lines)
    (cleanup DEP FEATS lines
     ++ (if existsb match_dependencies lines then [DEP] else [])
     ++ (if existsb match_features lines || existsb match_dependencies lines
         then FEATS else [])
     ++ (if existsb match_dependencies lines
            && negb (existsb match_features lines)
         then [nl; features_header_line] else [])).
Proof using Hok.
  apply (Permutation_count_occ string_dec). intros x.
  rewrite !count_occ_count_lines, (transform_count DEP FEATS Hok).
  rewrite !count_lines_app.
  destruct (existsb match_dependencies lines),
    (existsb match_features lines); simpl;
    change (count_lines (String.eqb x) []) with 0; lia.
Qed.

End Provenance.

Section Placement.

Variable DEP : string.
Variable FEATS : list string.
Hypothesis Hok : directive_ok DEP FEATS.

(** Up to the first dependencies header the second pass can only insert
    the feature block; the dependency line comes right after that header. *)
Lemma transform_dependency_place pre d post :
  existsb match_dependencies pre = false ->
  match_dependencies d = true ->
  exists rest,
    transform DEP FEATS (pre ++ d :: post)
    = insert_after_first match_features FEATS (cleanup DEP FEATS pre)
      ++ d :: DEP :: rest.
Proof using Hok.
  intros Hpre Hd. unfold transform. rewrite run_walk.
  rewrite cleanup_app, (cleanup_header DEP FEATS Hok)
    by auto using match_dependencies_bracket.
  set (fe := existsb match_features _).
  rewrite walk_app, walk_without_dependencies
    by now apply existsb_cleanup_false.
  cbn [new_lines dependency_added features_added].
  rewrite walk_dependencies_line by assumption.
  unfold close. cbn [new_lines dependency_added features_added].
  destruct (_ && _ && _); cbn [new_lines].
  - rewrite <- app_assoc, <- !app_comm_cons. eexists. reflexivity.
  - eexists. reflexivity.
Qed.

(** A line that is no directive line and no section header occurs in the
    output as often as in the input. *)
Lemma transform_foreign_count x lines :
  is_directive DEP FEATS x = false ->
  match_bracket x = false ->
  count_lines (String.eqb x) (transform DEP FEATS lines)
  = count_lines (String.eqb x) lines.
Proof using Hok.
  intros Hx Hb.
  assert (Hne : forall y, is_directive DEP FEATS y = true \/
                          match_bracket y = true ->
                          String.eqb x y = false).
  { intros y Hy. destruct (String.eqb x y) eqn:E; [|reflexivity].
    apply String.eqb_eq in E. subst y. destruct Hy; congruence. }
  rewrite (transform_count DEP FEATS Hok).
  rewrite !count_lines_cons.
  rewrite (Hne DEP), (Hne nl), (Hne features_header_line)
    by (auto using dep_is_directive, blank_is_directive).
  rewrite (count_rejected (String.eqb x) FEATS).
  - unfold count_lines at 1. rewrite filter_cleanup.
    + fold (count_lines (String.eqb x) lines).
      change (count_lines (String.eqb x) []) with 0.
      destruct (existsb match_dependencies lines),
        (existsb match_features lines); simpl; lia.
    + intros y Hy. apply String.eqb_eq in Hy. now subst.
  - apply forallb_forall. intros f Hin. apply negb_true_iff.
    apply Hne. left. now apply feature_is_directive.
Qed.

(** A feature line other than the blank one occurs in the output as often
    as in one feature block, when the block is inserted at all. *)
Lemma transform_feature_count f lines :
  existsb (String.eqb f) FEATS = true ->
  String.eqb f nl = false ->
  count_lines (String.eqb f) (transform DEP FEATS lines)
  = if existsb match_features lines || existsb match_dependencies lines
    then count_lines (String.eqb f) FEATS else 0.
Proof using Hok.
  intros Hf Hnl.
  assert (Hin : In f FEATS).
  { apply existsb_exists in Hf as (y & Hy & E).
    apply String.eqb_eq in E. now subst. }
  assert (Hdir : is_directive DEP FEATS f = true)
    by now apply feature_is_directive.
  assert (Hdep : String.eqb f DEP = false).
  { destruct (String.eqb f DEP) eqn:E; [|reflexivity].
    apply String.eqb_eq in E. subst f.
    rewrite (dep_not_feature _ _ Hok) in Hf. discriminate. }
  assert (Hfh : String.eqb f features_header_line = false).
  { destruct (String.eqb f features_header_line) eqn:E; [|reflexivity].
    apply String.eqb_eq in E. subst f.
    apply (directive_no_bracket DEP FEATS Hok) in Hdir. discriminate. }
  rewrite (transform_count DEP FEATS Hok), count_cleanup_directive.
  - rewrite !count_lines_cons, Hdep, Hnl, Hfh.
    change (count_lines (String.eqb f) []) with 0.
    destruct (existsb match_dependencies lines),
      (existsb match_features lines); simpl; lia.
  - intros x Hx. eapply eqb_directive; [exact Hdir|exact Hx].
Qed.

End Placement.

(** ** The files [main] finds, and their order *)



Lemma insert_sorted_permutation (p : path) (ps : list path) :
  Permutation (insert_sorted p ps) (p :: ps).
Proof.
  induction ps as [|q ps IH]; simpl; [reflexivity|].
  destruct (path_leb p q); [reflexivity|].
  rewrite IH. apply perm_swap.
Qed.

Lemma sorted_permutation (ps : list path) : Permutation (sorted ps) ps.
Proof.
  induction ps as [|p ps IH]; simpl; [reflexivity|].
  now rewrite insert_sorted_permutation, IH.
Qed.



(** ** The loop over the files *)

Lemma flat_map_ext_on {A B} (f g : A -> list B) (l : list A) :
  (forall x, In x l -> f x = g x) -> flat_map f l = flat_map g l.
Proof.
  induction l as [|x l IH]; intros H; [reflexivity|].
  cbn [flat_map]. rewrite (H x), IH; [reflexivity| |now left].
  intros y Hy. apply H. now right.
Qed.


(** ** Texts that end with a newline *)

Lemma terminated_not_empty line : terminated line = true -> line <> EmptyString.
Proof. destruct line; [discriminate|congruence]. Qed.

Lemma ends_with_newline_append line text :
  terminated line = true ->
  ends_with_newline text = true ->
  ends_with_newline (String.append line text) = true.
Proof.
  intros Hl Ht. induction line as [|c line IH]; [discriminate|].
  rewrite append_cons. cbn [terminated] in Hl.
  destruct (Ascii.eqb c "010") eqn:Ec.
  - apply String.eqb_eq in Hl. subst line.
    change (String.append "" text) with text.
    destruct text; [exact Ec|exact Ht].
  - specialize (IH Hl).
    destruct line as [|c' line']; [discriminate|].
    rewrite append_cons in *. exact IH.
Qed.

Lemma writelines_ends_with_newline lines :
  forallb terminated lines = true ->
  ends_with_newline (writelines lines) = true.
Proof.
  induction lines as [|l lines IH]; [reflexivity|].
  cbn [forallb]. intros H. apply andb_true_iff in H as [Hl Hr].
  rewrite writelines_cons. apply ends_with_newline_append; auto.
Qed.

Lemma directive_lines_terminated (s : script) :
  terminated (dependency_line s) = true
  /\ forallb terminated (feature_lines s) = true.
Proof. destruct s; split; reflexivity. Qed.

Lemma transform_of_terminated (s : script) (lines : list string) :
  forallb terminated lines = true ->
  forallb terminated (transform_of s lines) = true.
Proof.
  intros H. rewrite forallb_forall in *. intros x Hx.
  rewrite transform_of_generic in Hx.
  apply (Permutation_in _
           (transform_permutation _ _ (script_ok s) lines)) in Hx.
  destruct (directive_lines_terminated s) as [Hd Hf].
  rewrite forallb_forall in Hf.
  repeat (apply in_app_or in Hx as [Hx|Hx]).
  - apply H. unfold cleanup in Hx. now apply List.filter_In in Hx.
  - destruct (existsb match_dependencies lines);
      [destruct Hx as [<-|[]]; exact Hd|destruct Hx].
  - destruct (_ || _); [now apply Hf|destruct Hx].
  - destruct (_ && _); [|destruct Hx].
    destruct Hx as [<-|[<-|[]]]; reflexivity.
Qed.

(** * Further properties of the rewriter *)

(** X1. Nothing that survives the cleanup pass is lost or moved: the
    cleaned lines, section headers included, are a subsequence of the
    output. *)
Theorem cleaned_lines_kept_in_order (s : script) (lines : list string) :
  cleanup_of s lines `sublist_of` transform_of s lines.
Proof.
  rewrite cleanup_of_generic, transform_of_generic.
  apply transform_sublist.
Qed.

(** X2. The output holds the cleaned lines and the inserted ones, and
    nothing else: one dependency line when a dependencies header exists,
    one feature block when a features or a dependencies header exists, and
    a blank line with a features header when the section is synthesized. *)
Theorem output_is_cleaned_input_and_insertions (s : script)
    (lines : list string) :
  Permutation (transform_of s lines)
    (cleanup_of s lines
     ++ (if existsb match_dependencies lines then [dependency_line s] else [])
     ++ (if existsb match_features lines || existsb match_dependencies lines
         then feature_lines s else [])
     ++ (if existsb match_dependencies lines
            && negb (existsb match_features lines)
         then [nl; features_header_line] else [])).
Proof.
  rewrite cleanup_of_generic, transform_of_generic.
  apply transform_permutation, script_ok.
Qed.

(** X3. The dependency line stands right after the first dependencies
    header; in front of that header the output is the cleaned input, with
    the feature block after its first features header if it has one. *)
Theorem dependency_line_follows_first_header (s : script)
    (pre : list string) (d : string) (post : list string) :
  existsb match_dependencies pre = false ->
  match_dependencies d = true ->
  exists rest,
    transform_of s (pre ++ d :: post)
    = insert_after_first match_features (feature_lines s) (cleanup_of s pre)
      ++ d :: dependency_line s :: rest.
Proof.
  intros Hpre Hd. rewrite transform_of_generic, cleanup_of_generic.
  now apply transform_dependency_place; [apply script_ok| |].
Qed.

Lemma dependency_line_follows_first_header_witness :
  exists rest,
    transform_of add_hotpath
      ([ln "[package]"; nl] ++ ln "[dependencies]" :: [ln "foo = 1"])
    = insert_after_first match_features (feature_lines add_hotpath)
        (cleanup_of add_hotpath [ln "[package]"; nl])
      ++ ln "[dependencies]" :: dependency_line add_hotpath :: rest.
Proof.
  apply (dependency_line_follows_first_header add_hotpath
           [ln "[package]"; nl] (ln "[dependencies]") [ln "foo = 1"]);
    reflexivity.
Defined.

(** X4. A feature line other than the blank one is never duplicated: the
    output holds it as often as one feature block does when the input has a
    features or a dependencies header, and not at all otherwise, however
    many copies the input held. *)
Theorem feature_line_not_duplicated (s : script) (f : string)
    (lines : list string) :
  existsb (String.eqb f) (feature_lines s) = true ->
  String.eqb f nl = false ->
  count_lines (String.eqb f) (transform_of s lines)
  = if existsb match_features lines || existsb match_dependencies lines
    then count_lines (String.eqb f) (feature_lines s) else 0.
Proof.
  intros Hf Hnl. rewrite transform_of_generic.
  now apply transform_feature_count; [apply script_ok| |].
Qed.

Lemma feature_line_not_duplicated_witness :
  count_lines (String.eqb (hd nl Hotpath.FEATURE_LINES))
    (transform_of add_hotpath twice_edited) = 1.
Proof.
  apply (feature_line_not_duplicated add_hotpath
           (hd nl Hotpath.FEATURE_LINES) twice_edited);
    reflexivity.
Defined.

(** X5. The two scripts do not undo each other: after one script and then
    the other (or the same one again) on a manifest with a dependencies
    header, the dependency line of each is there exactly once. *)
Theorem both_dependency_lines_survive (s1 s2 : script) (lines : list string) :
  existsb match_dependencies lines = true ->
  count_lines (String.eqb (dependency_line s1))
    (transform_of s2 (transform_of s1 lines)) = 1
  /\ count_lines (String.eqb (dependency_line s2))
       (transform_of s2 (transform_of s1 lines)) = 1.
Proof.
  intros Hd.
  assert (Hkeep : existsb match_dependencies (transform_of s1 lines) = true).
  { rewrite transform_of_generic,
      (transform_keeps_dependencies _ _ (script_ok s1)). exact Hd. }
  assert (Hone : forall s l, existsb match_dependencies l = true ->
            count_lines (String.eqb (dependency_line s)) (transform_of s l)
            = 1).
  { intros s l Hl. rewrite transform_of_generic,
      (transform_dependency_lines _ _ (script_ok s)), Hl. reflexivity. }
  split; [|now apply Hone].
  destruct s1, s2; try (now apply Hone);
    rewrite (transform_of_generic _ (transform_of _ lines)),
      (transform_foreign_count _ _ (script_ok _)) by reflexivity;
    now apply Hone.
Qed.

Lemma both_dependency_lines_survive_witness :
  count_lines (String.eqb (dependency_line add_hotpath))
    (transform_of add_channels_console
       (transform_of add_hotpath dependencies_only)) = 1
  /\ count_lines (String.eqb (dependency_line add_channels_console))
       (transform_of add_channels_console
          (transform_of add_hotpath dependencies_only)) = 1.
Proof.
  apply (both_dependency_lines_survive add_hotpath add_channels_console
           dependencies_only).
  reflexivity.
Defined.

(** X6. [add_channels_console.py] is [add_hotpath.py] with other constants:
    its two passes compute what the passes of [add_hotpath.py] compute for
    its dependency line and the one-line feature block [[FEATURE_LINE]]. *)
Theorem channels_console_is_hotpath_instance (lines : list string) :
  ChannelsConsole.first_pass lines
  = first_pass ChannelsConsole.DEPENDENCY_LINE [ChannelsConsole.FEATURE_LINE]
      lines
  /\ ChannelsConsole.run lines
     = run ChannelsConsole.DEPENDENCY_LINE [ChannelsConsole.FEATURE_LINE]
         lines
  /\ ChannelsConsole.transform lines
     = transform ChannelsConsole.DEPENDENCY_LINE
         [ChannelsConsole.FEATURE_LINE] lines.
Proof.
  split; [apply channels_console_first_pass|].
  split; [apply channels_console_run|].
  unfold ChannelsConsole.transform, transform.
  now rewrite channels_console_run.
Qed.

(** X7. On a manifest with a features header, or without a dependencies
    header, a second run repeats the first: the same lines and the same
    flags. *)
Theorem second_run_repeats_first_when_settled (s : script)
    (lines : list string) :
  existsb match_features lines = true
  \/ existsb match_dependencies lines = false ->
  run_of s (transform_of s lines) = run_of s lines.
Proof.
  intros H. rewrite transform_of_generic, !run_of_generic.
  apply run_again; [apply script_ok|exact H].
Qed.

Lemma second_run_repeats_first_when_settled_witness :
  run_of add_hotpath (transform_of add_hotpath features_only)
  = run_of add_hotpath features_only.
Proof.
  apply (second_run_repeats_first_when_settled add_hotpath features_only).
  left. reflexivity.
Defined.

(** ** One file, as [process_cargo_toml] leaves it *)



(** ** A last line without its newline *)

Lemma prefix_append (p d t : string) :
  String.prefix p d = true -> String.prefix p (String.append d t) = true.
Proof.
  revert d. induction p as [|a p IH]; intros d H; [apply prefix_empty|].
  apply prefix_cons_inv in H as (d' & -> & H).
  rewrite append_cons, prefix_cons_same. now apply IH.
Qed.

Lemma terminated_append (d l : string) :
  no_newline d = true -> terminated l = true ->
  terminated (String.append d l) = true.
Proof.
  intros Hd Hl. induction d as [|c d IH]; [exact Hl|].
  cbn [no_newline] in Hd. apply andb_true_iff in Hd as [Hc Hd].
  apply negb_true_iff in Hc.
  rewrite append_cons. cbn [terminated]. rewrite Hc. now apply IH.
Qed.

Lemma readlines_after_terminated (lines : list string) (text : string) :
  forallb terminated lines = true ->
  readlines (String.append (writelines lines) text) = lines ++ readlines text.
Proof.
  induction lines as [|l lines IH]; [reflexivity|].
  cbn [forallb]. intros H. apply andb_true_iff in H as [Hl Hr].
  rewrite writelines_cons, append_assoc, readlines_terminated_line, IH
    by assumption.
  reflexivity.
Qed.

Lemma count_lines_In (x : string) (l : list string) :
  In x l <-> 0 < count_lines (String.eqb x) l.
Proof.
  rewrite <- existsb_count_pos, existsb_exists. split.
  - intros H. exists x. split; [exact H|apply String.eqb_refl].
  - intros (y & Hy & E). apply String.eqb_eq in E. now subst.
Qed.

Section Unterminated.

Variable DEP : string.
Variable FEATS : list string.
Hypothesis Hok : directive_ok DEP FEATS.
Hypothesis Hdep : terminated DEP = true.
Hypothesis Hfeats : forallb terminated FEATS = true.

(** A section header other than the literal features header occurs in the
    output as often as in the input. *)
Lemma transform_header_count x lines :
  match_bracket x = true ->
  String.eqb x features_header_line = false ->
  count_lines (String.eqb x) (transform DEP FEATS lines)
  = count_lines (String.eqb x) lines.
Proof using Hok.
  intros Hb Hfh.
  assert (Hne : forall y, match_bracket y = false -> String.eqb x y = false).
  { intros y Hy. destruct (String.eqb x y) eqn:E; [|reflexivity].
    apply String.eqb_eq in E. subst y. congruence. }
  rewrite (transform_count DEP FEATS Hok), !count_lines_cons, Hfh.
  rewrite (Hne DEP (dep_no_bracket _ _ Hok)), (Hne nl eq_refl).
  rewrite (count_rejected (String.eqb x) FEATS).
  - unfold count_lines at 1. rewrite filter_cleanup.
    + fold (count_lines (String.eqb x) lines).
      change (count_lines (String.eqb x) []) with 0.
      destruct (existsb match_dependencies lines),
        (existsb match_features lines); simpl; lia.
    + intros y Hy. apply String.eqb_eq in Hy. subst y.
      destruct (is_directive DEP FEATS x) eqn:E; [|reflexivity].
      apply (directive_no_bracket DEP FEATS Hok) in E. congruence.
  - apply forallb_forall. intros f Hin. apply negb_true_iff, Hne.
    pose proof (feats_no_bracket _ _ Hok) as Hall.
    rewrite forallb_forall in Hall. apply Hall in Hin.
    now apply negb_true_iff in Hin.
Qed.

(** The lines of the output are input lines or terminated lines. *)
Lemma transform_line_origin x lines :
  In x (transform DEP FEATS lines) -> In x lines \/ terminated x = true.
Proof using Hok Hdep Hfeats.
  intros Hx.
  apply (Permutation_in _ (transform_permutation DEP FEATS Hok lines)) in Hx.
  rewrite forallb_forall in Hfeats.
  repeat (apply in_app_or in Hx as [Hx|Hx]).
  - left. unfold cleanup in Hx. now apply List.filter_In in Hx.
  - right. destruct (existsb match_dependencies lines);
      [destruct Hx as [<-|[]]; exact Hdep|destruct Hx].
  - right. destruct (_ || _); [now apply Hfeats|destruct Hx].
  - right. destruct (_ && _); [|destruct Hx].
    destruct Hx as [<-|[<-|[]]]; reflexivity.
Qed.

Lemma unterminated_header_glued text pre d :
  readlines text = pre ++ [d] ->
  forallb terminated pre = true ->
  no_newline d = true ->
  match_dependencies d = true ->
  existsb match_dependencies pre = false ->
  exists before after,
    readlines (writelines (transform DEP FEATS (readlines text)))
    = before ++ String.append d DEP :: after
    /\ count_lines (String.eqb DEP) before = 0
    /\ count_lines (String.eqb DEP) after = 0.
Proof using Hok Hdep Hfeats.
  intros Hread Hpre Hnn Hd Hnd. rewrite Hread.
  destruct (transform_dependency_place DEP FEATS Hok pre d [] Hnd Hd)
    as (rest & E).
  set (A := insert_after_first match_features FEATS (cleanup DEP FEATS pre))
    in *.
  assert (Hdb : match_bracket d = true)
    by now apply match_dependencies_bracket.
  assert (Hdfh : String.eqb d features_header_line = false).
  { destruct (String.eqb d features_header_line) eqn:Ed; [|reflexivity].
    apply String.eqb_eq in Ed. subst d. discriminate. }
  assert (HdDEP : String.eqb d DEP = false).
  { destruct (String.eqb d DEP) eqn:Ed; [|reflexivity].
    apply String.eqb_eq in Ed. subst d.
    rewrite (dep_no_bracket _ _ Hok) in Hdb. discriminate. }
  assert (HDEPd : String.eqb DEP d = false)
    by now rewrite String.eqb_sym.
  (* [d] occurs once in the output, at the place found *)
  assert (Hcd : count_lines (String.eqb d) (pre ++ [d]) = 1).
  { rewrite count_lines_app, count_lines_cons, String.eqb_refl.
    change (count_lines (String.eqb d) []) with 0.
    assert (Hz : count_lines (String.eqb d) pre = 0); [|lia].
    apply count_lines_zero.
    destruct (existsb (String.eqb d) pre) eqn:Ex; [|reflexivity].
    apply existsb_exists in Ex as (y & Hy & Ey).
    apply String.eqb_eq in Ey. subst y.
    assert (existsb match_dependencies pre = true)
      by (apply existsb_exists; eauto).
    congruence. }
  pose proof (transform_header_count d (pre ++ [d]) Hdb Hdfh) as Hct.
  rewrite Hcd, E in Hct.
  rewrite count_lines_app, !count_lines_cons, String.eqb_refl, HdDEP in Hct.
  (* the dependency line occurs once too *)
  pose proof (transform_dependency_lines DEP FEATS Hok (pre ++ [d])) as Hcx.
  assert (Hhas : existsb match_dependencies (pre ++ [d]) = true).
  { rewrite existsb_app. simpl. rewrite Hd. now rewrite orb_true_r. }
  rewrite Hhas, E in Hcx.
  rewrite count_lines_app, !count_lines_cons, String.eqb_refl, HDEPd in Hcx.
  (* so the lines around are terminated *)
  assert (Hterm : forall l, (forall x, In x l ->
                     In x (transform DEP FEATS (pre ++ [d]))) ->
                   count_lines (String.eqb d) l = 0 ->
                   forallb terminated l = true).
  { intros l Hsub Hz. apply forallb_forall. intros x Hx.
    destruct (transform_line_origin x _ (Hsub x Hx)) as [Hin|Ht];
      [|exact Ht].
    apply in_app_or in Hin as [Hin|[<-|[]]].
    - rewrite forallb_forall in Hpre. now apply Hpre.
    - apply count_lines_In in Hx. lia. }
  assert (HA : forallb terminated A = true).
  { apply Hterm; [|lia]. intros x Hx. rewrite E. apply in_or_app. now left. }
  assert (Hrest : forallb terminated rest = true).
  { apply Hterm; [|lia]. intros x Hx. rewrite E. apply in_or_app. right.
    right. now right. }
  exists A, rest. split; [|split; lia].
  rewrite E, writelines_app, readlines_after_terminated by assumption.
  f_equal. rewrite !writelines_cons, <- append_assoc.
  rewrite readlines_terminated_line by now apply terminated_append.
  f_equal. now apply readlines_writelines_id.
Qed.

End Unterminated.

(** ** The features section at the end of the file *)

Section AtEnd.

Variable DEP : string.
Variable FEATS : list string.
Hypothesis Hok : directive_ok DEP FEATS.

Lemma transform_synthesizes_at_end pre d mid :
  existsb match_dependencies pre = false ->
  match_dependencies d = true ->
  existsb other_section mid = false ->
  existsb match_features (pre ++ d :: mid) = false ->
  transform DEP FEATS (pre ++ d :: mid)
  = cleanup DEP FEATS pre ++ d :: DEP :: cleanup DEP FEATS mid
    ++ nl :: features_header_line :: FEATS.
Proof using Hok.
  intros Hpre Hd Hmid Hfeat.
  pose proof Hfeat as Hfc.
  rewrite <- (cleanup_keeps_features DEP FEATS Hok) in Hfc.
  rewrite cleanup_app, (cleanup_header DEP FEATS Hok) in Hfc
    by auto using match_dependencies_bracket.
  unfold transform. rewrite run_walk.
  rewrite cleanup_app, (cleanup_header DEP FEATS Hok)
    by auto using match_dependencies_bracket.
  rewrite Hfc.
  rewrite existsb_app in Hfc. apply orb_false_iff in Hfc as [Hf1 Hfc].
  simpl in Hfc. apply orb_false_iff in Hfc as [Hfd Hf2].
  rewrite walk_app,
    (walk_inert DEP FEATS false false false (cleanup DEP FEATS pre))
    by auto using existsb_cleanup_false.
  cbn [new_lines dependency_added features_added].
  rewrite walk_dependencies_line by assumption.
  rewrite walk_inert by auto 6 using existsb_cleanup_false.
  unfold close. cbn [new_lines dependency_added features_added andb negb].
  rewrite <- ?app_assoc, <- ?app_comm_cons, <- ?app_assoc. reflexivity.
Qed.

End AtEnd.

(** X16. When the first dependencies header [d] is followed by no other
    section header and no line is a features header, the features section
    is synthesized at the very end: a blank line, the header and the
    feature block come after everything else. *)
Theorem features_section_at_end_of_file (s : script) (pre : list string)
    (d : string) (mid : list string) :
  existsb match_dependencies pre = false ->
  match_dependencies d = true ->
  existsb other_section mid = false ->
  existsb match_features (pre ++ d :: mid) = false ->
  transform_of s (pre ++ d :: mid)
  = cleanup_of s pre ++ d :: dependency_line s :: cleanup_of s mid
    ++ nl :: features_header_line :: feature_lines s.
Proof.
  intros Hpre Hd Hmid Hf.
  rewrite transform_of_generic, !cleanup_of_generic.
  now apply transform_synthesizes_at_end; [apply script_ok| | | |].
Qed.

Lemma features_section_at_end_of_file_witness :
  transform_of add_channels_console
    ([ln "[package]"] ++ ln "[dependencies]" :: [ln "foo = 1"; nl])
  = [ ln "[package]"; ln "[dependencies]"; ChannelsConsole.DEPENDENCY_LINE;
      ln "foo = 1"; nl; ln "[features]"; ChannelsConsole.FEATURE_LINE ].
Proof.
  apply (features_section_at_end_of_file add_channels_console
           [ln "[package]"] (ln "[dependencies]") [ln "foo = 1"; nl]);
    reflexivity.
Defined.

(** X17. Whenever the input has a features header or a dependencies
    header, however many, the feature block stands unmodified right after
    the first features header of the output. *)
Theorem feature_block_follows_first_features_header (s : script)
    (lines : list string) :
  existsb match_features lines = true
  \/ existsb match_dependencies lines = true ->
  exists pre h post,
    transform_of s lines = pre ++ h :: feature_lines s ++ post
    /\ match_features h = true
    /\ existsb match_features pre = false.
Proof.
  intros H. rewrite transform_of_generic.
  apply transform_block; [apply script_ok|exact H].
Qed.

Lemma feature_block_follows_first_features_header_witness :
  exists pre h post,
    transform_of add_hotpath twice_edited
    = pre ++ h :: feature_lines add_hotpath ++ post
    /\ match_features h = true
    /\ existsb match_features pre = false.
Proof.
  apply (feature_block_follows_first_features_header add_hotpath
           twice_edited).
  left. reflexivity.
Defined.

(** * Files: text mode, one file, and whole runs *)

(** ** Text mode *)

Lemma no_cr_append (a b : string) :
  no_cr (String.append a b) = no_cr a && no_cr b.
Proof.
  induction a as [|c a IH]; [reflexivity|].
  rewrite append_cons. cbn [no_cr]. rewrite IH. apply andb_assoc.
Qed.

Lemma universal_newlines_no_cr (raw : string) :
  no_cr raw = true -> universal_newlines raw = raw.
Proof.
  induction raw as [|c raw IH]; [reflexivity|].
  cbn [no_cr universal_newlines]. intros H.
  apply andb_true_iff in H as [Hc Hr]. apply negb_true_iff in Hc.
  rewrite Hc, IH by assumption. reflexivity.
Qed.

Lemma no_cr_universal_newlines (raw : string) :
  no_cr (universal_newlines raw) = true.
Proof.
  assert (H : no_cr (universal_newlines raw) = true
              /\ forall c, no_cr (universal_newlines (String c raw)) = true);
    [|tauto].
  induction raw as [|c' raw [IH1 IH2]].
  - split; [reflexivity|]. intros c. cbn [universal_newlines].
    destruct (Ascii.eqb c "013") eqn:Ec; cbn [no_cr]; [reflexivity|].
    now rewrite Ec.
  - split; [apply IH2|]. intros c.
    cbn [universal_newlines]. fold (universal_newlines (String c' raw)).
    destruct (Ascii.eqb c "013") eqn:Ec.
    + destruct (Ascii.eqb c' "010"); cbn [no_cr]; simpl;
        [exact IH1|apply IH2].
    + cbn [no_cr]. rewrite Ec. simpl. apply IH2.
Qed.

Lemma universal_newline_out (linesep text : string) :
  known_linesep linesep = true ->
  no_cr text = true ->
  universal_newlines (newline_out linesep text) = text.
Proof.
  intros Hls Hcr. unfold known_linesep in Hls.
  apply orb_true_iff in Hls as [Hls|Hls]; apply String.eqb_eq in Hls;
    subst linesep.
  - rewrite newline_out_nl. now apply universal_newlines_no_cr.
  - induction text as [|c text IH]; [reflexivity|].
    cbn [no_cr] in Hcr. apply andb_true_iff in Hcr as [Hc Hr].
    apply negb_true_iff in Hc. specialize (IH Hr).
    cbn [newline_out]. destruct (Ascii.eqb c "010") eqn:Ec.
    + apply Ascii.eqb_eq in Ec. subst c.
      change (String.append crlf (newline_out crlf text))
        with (String "013" (String "010" (newline_out crlf text))).
      cbn [universal_newlines]. simpl. now rewrite IH.
    + cbn [universal_newlines]. now rewrite Hc, IH.
Qed.

Lemma readlines_no_cr (text : string) :
  no_cr text = true -> forallb no_cr (readlines text) = true.
Proof.
  induction text as [|c text IH]; [reflexivity|].
  cbn [no_cr readlines]. intros H.
  apply andb_true_iff in H as [Hc Hr]. specialize (IH Hr).
  destruct (Ascii.eqb c "010").
  - cbn [forallb no_cr]. now rewrite Hc, IH.
  - destruct (readlines text) as [|l ls]; cbn [forallb no_cr] in *.
    + now rewrite Hc.
    + apply andb_true_iff in IH as [Hl Hls]. now rewrite Hc, Hl, Hls.
Qed.

Lemma writelines_no_cr (lines : list string) :
  forallb no_cr lines = true -> no_cr (writelines lines) = true.
Proof.
  induction lines as [|l lines IH]; [reflexivity|].
  cbn [forallb]. intros H. apply andb_true_iff in H as [Hl Hr].
  rewrite writelines_cons, no_cr_append, Hl, IH by assumption. reflexivity.
Qed.

Lemma read_lines_no_cr (raw : string) :
  forallb no_cr (read_lines raw) = true.
Proof. apply readlines_no_cr, no_cr_universal_newlines. Qed.

Lemma directive_lines_no_cr (s : script) :
  no_cr (dependency_line s) = true
  /\ forallb no_cr (feature_lines s) = true.
Proof. destruct s; split; reflexivity. Qed.

Lemma transform_of_no_cr (s : script) (lines : list string) :
  forallb no_cr lines = true ->
  forallb no_cr (transform_of s lines) = true.
Proof.
  intros H. rewrite forallb_forall in *. intros x Hx.
  rewrite transform_of_generic in Hx.
  apply (Permutation_in _
           (transform_permutation _ _ (script_ok s) lines)) in Hx.
  destruct (directive_lines_no_cr s) as [Hd Hf].
  rewrite forallb_forall in Hf.
  repeat (apply in_app_or in Hx as [Hx|Hx]).
  - apply H. unfold cleanup in Hx. now apply List.filter_In in Hx.
  - destruct (existsb match_dependencies lines);
      [destruct Hx as [<-|[]]; exact Hd|destruct Hx].
  - destruct (_ || _); [now apply Hf|destruct Hx].
  - destruct (_ && _); [|destruct Hx].
    destruct Hx as [<-|[<-|[]]]; reflexivity.
Qed.

(** What is written is read back line for line. *)
Lemma read_lines_written (linesep : string) (lines : list string) :
  known_linesep linesep = true ->
  forallb terminated lines = true ->
  forallb no_cr lines = true ->
  read_lines (newline_out linesep (writelines lines)) = lines.
Proof.
  intros Hls Ht Hcr. unfold read_lines.
  rewrite universal_newline_out by auto using writelines_no_cr.
  now apply readlines_writelines_id.
Qed.

Lemma read_lines_rewrite_raw (s : script) (linesep raw : string) :
  known_linesep linesep = true ->
  ends_with_newline (universal_newlines raw) = true ->
  read_lines (rewrite_raw s linesep raw) = transform_of s (read_lines raw).
Proof.
  intros Hls H. unfold rewrite_raw. apply read_lines_written; [exact Hls| |].
  - apply transform_of_terminated, readlines_all_terminated, H.
  - apply transform_of_no_cr, read_lines_no_cr.
Qed.

Lemma rewrite_raw_ends_with_newline (s : script) (linesep raw : string) :
  known_linesep linesep = true ->
  ends_with_newline (universal_newlines raw) = true ->
  ends_with_newline (universal_newlines (rewrite_raw s linesep raw)) = true.
Proof.
  intros Hls H. unfold rewrite_raw.
  rewrite universal_newline_out.
  - apply writelines_ends_with_newline, transform_of_terminated,
      readlines_all_terminated, H.
  - exact Hls.
  - apply writelines_no_cr, transform_of_no_cr, read_lines_no_cr.
Qed.

Lemma rewrite_raw_settles (s : script) (linesep raw : string) :
  known_linesep linesep = true ->
  ends_with_newline (universal_newlines raw) = true ->
  rewrite_raw s linesep (rewrite_raw s linesep (rewrite_raw s linesep raw))
  = rewrite_raw s linesep (rewrite_raw s linesep raw).
Proof.
  intros Hls H.
  pose proof (rewrite_raw_ends_with_newline s linesep raw Hls H) as H1.
  unfold rewrite_raw at 1.
  rewrite (read_lines_rewrite_raw s linesep _ Hls H1),
    (read_lines_rewrite_raw s linesep _ Hls H).
  unfold rewrite_raw at 1.
  rewrite (read_lines_rewrite_raw s linesep _ Hls H).
  rewrite !transform_of_generic.
  now rewrite (transform_twice_fixed _ _ (script_ok s)).
Qed.

(** ** Writing back and reporting, for one file *)



(** ** One file *)

Lemma usable_file_spec (w : world) (p : path) :
  usable_file w p = true
  <-> exists raw, entries w !! p = Some (File true true (Text raw)).
Proof.
  unfold usable_file. split.
  - destruct (entries w !! p) as [[|[] [] [raw|]]|]; try discriminate.
    eauto.
  - intros (raw & ->). reflexivity.
Qed.

Lemma process_cargo_toml_usable (s : script) (file_path : path) (w : world)
    (raw : string) :
  entries w !! file_path = Some (File true true (Text raw)) ->
  process_cargo_toml s file_path w
  = Returned
      (mkWorld
         (<[file_path
            := File true true (Text (rewrite_raw s (os_linesep w) raw))]>
            (entries w))
         (os_linesep w))
      (file_events s w file_path).
Proof.
  intros H. unfold process_cargo_toml, file_events. rewrite H. cbn [negb].
  unfold rewrite_raw, read_lines, transform_of.
  rewrite !run_of_generic, (run_dependency_added _ _ (script_ok s)),
    (run_features_added _ _ (script_ok s)).
  destruct (existsb match_dependencies (readlines (universal_newlines raw))),
    (existsb match_features (readlines (universal_newlines raw)));
    reflexivity.
Qed.

Lemma process_cargo_toml_unusable (s : script) (file_path : path) (w : world) :
  usable_file w file_path = false ->
  exists e trace,
    process_cargo_toml s file_path w = Raised e w trace
    /\ forall q raw, ~ In (EvWrite q raw) trace.
Proof.
  unfold usable_file, process_cargo_toml.
  destruct (entries w !! file_path) as [[|[] [] [raw|]]|]; try discriminate;
    intros _; cbn [negb]; eexists; eexists;
    (split; [reflexivity|]);
    intros q r Hin; cbn in Hin; intuition discriminate.
Qed.

(** ** The files [main] finds *)

Lemma glob_cargo_files_spec (crates_dir : path) (w : world) (p : path) :
  p ∈ glob_cargo_files crates_dir w
  <-> is_cargo_file crates_dir p = true
      /\ is_directory w crates_dir = true
      /\ is_directory w (List.removelast p) = true
      /\ is_Some (entries w !! p).
Proof.
  unfold glob_cargo_files.
  rewrite list_elem_of_In, List.filter_In, <- list_elem_of_In,
    elem_of_elements, elem_of_dom, !andb_true_iff. tauto.
Qed.

Lemma glob_cargo_files_NoDup (crates_dir : path) (w : world) :
  NoDup (glob_cargo_files crates_dir w).
Proof.
  unfold glob_cargo_files. apply NoDup_ListNoDup, List.NoDup_filter.
  apply NoDup_ListNoDup, NoDup_elements.
Qed.

(** ** The loop over the files *)


Lemma process_each_spec (s : script) (ps : list path) (w : world)
    (trace : list event) :
  NoDup ps ->
  (forall p, p ∈ ps -> usable_file w p = true) ->
  exists w',
    process_each s ps w trace
    = Returned w' (trace ++ flat_map (file_events s w) ps)
    /\ os_linesep w' = os_linesep w
    /\ forall q,
         entries w' !! q
         = if bool_decide (q ∈ ps)
           then rewrite_entry s (os_linesep w) <$> entries w !! q
           else entries w !! q.
Proof.
  revert w trace. induction ps as [|p ps IH]; intros w trace Hnd Hall.
  - exists w. cbn [process_each flat_map]. rewrite app_nil_r.
    split; [reflexivity|split; [reflexivity|]].
    intros q. rewrite bool_decide_eq_false_2; [reflexivity|].
    apply not_elem_of_nil.
  - apply NoDup_cons in Hnd as [Hp Hnd].
    assert (usable_file w p = true) as Hu by (apply Hall; left).
    apply usable_file_spec in Hu as (raw & Ht).
    cbn [process_each]. rewrite (process_cargo_toml_usable s p w raw Ht).
    set (w1 := mkWorld _ _).
    assert (Hother : forall q, q ∈ ps -> entries w1 !! q = entries w !! q).
    { intros q Hq. unfold w1. cbn [entries].
      apply lookup_insert_ne. intros ->. contradiction. }
    destruct (IH w1 (trace ++ file_events s w p) Hnd) as (w' & E & Hd & Hf).
    { intros q Hq. unfold usable_file. rewrite Hother by assumption.
      apply Hall. now right. }
    exists w'. split; [|split].
    + rewrite E. f_equal. rewrite <- app_assoc. f_equal.
      cbn [flat_map]. f_equal.
      apply flat_map_ext_on. intros q Hq. apply list_elem_of_In in Hq.
      unfold file_events. rewrite Hother by assumption. reflexivity.
    + exact Hd.
    + intros q. rewrite Hf. change (os_linesep w1) with (os_linesep w).
      destruct (decide (q = p)) as [->|Hne].
      * rewrite (bool_decide_eq_false_2 _ Hp).
        rewrite bool_decide_eq_true_2 by left.
        unfold w1. cbn [entries]. rewrite lookup_insert_eq, Ht. reflexivity.
      * assert (Hq : entries w1 !! q = entries w !! q).
        { unfold w1. cbn [entries]. apply lookup_insert_ne. congruence. }
        rewrite Hq. destruct (decide (q ∈ ps)) as [Hin|Hin].
        -- rewrite !bool_decide_eq_true_2; [reflexivity|now right|exact Hin].
        -- rewrite !bool_decide_eq_false_2; [reflexivity| |exact Hin].
           intros H. apply elem_of_cons in H as [H|H]; contradiction.
Qed.

(** A file that cannot be processed ends the loop with its exception. *)
Lemma process_each_raises (s : script) (ps : list path) (w : world)
    (trace : list event) :
  (exists p, p ∈ ps /\ usable_file w p = false) ->
  Forall (fun ev => forall n, ev <> EvPrint (Done n)) trace ->
  exists e w' trace',
    process_each s ps w trace = Raised e w' trace'
    /\ os_linesep w' = os_linesep w
    /\ Forall (fun ev => forall n, ev <> EvPrint (Done n)) trace'.
Proof.
  revert w trace.
  induction ps as [|q ps IH]; intros w trace (p & Hin & Hp) Hall.
  - apply elem_of_nil in Hin. destruct Hin.
  - cbn [process_each].
    destruct (usable_file w q) eqn:Hq.
    + apply usable_file_spec in Hq as (raw & Hq).
      rewrite (process_cargo_toml_usable s q w raw Hq).
      set (w1 := mkWorld _ _).
      assert (Hne : p <> q).
      { intros ->. unfold usable_file in Hp. rewrite Hq in Hp.
        discriminate. }
      destruct (IH w1 (trace ++ file_events s w q))
        as (e & w' & tr & E & Hl & Hd).
      { exists p. split.
        - apply elem_of_cons in Hin as [Hin|Hin]; [contradiction|exact Hin].
        - unfold usable_file, w1. cbn [entries].
          rewrite lookup_insert_ne by congruence. exact Hp. }
      { apply Forall_app. split; [exact Hall|].
        unfold file_events. rewrite Hq.
        destruct (existsb match_dependencies (read_lines raw));
          repeat (constructor; [intros n; discriminate|]);
          constructor. }
      exists e, w', tr. split; [exact E|]. split; [exact Hl|exact Hd].
    + destruct (process_cargo_toml_unusable s q w Hq) as (e & tr & E & _).
      rewrite E. exists e, w, (trace ++ tr). split; [reflexivity|].
      split; [reflexivity|].
      apply Forall_app. split; [exact Hall|].
      clear -E. unfold process_cargo_toml in E.
      destruct (entries w !! q) as [[|[] [] [raw|]]|]; cbn [negb] in E;
        inversion E; subst;
        repeat (constructor; [intros n; discriminate|]);
        constructor.
Qed.

(** ** A whole run *)

Lemma main_run (s : script) (script_dir : path) (w : world) :
  path_exists w (script_dir ++ ["crates"]) = true ->
  manifests_usable (script_dir ++ ["crates"]) w = true ->
  exists w',
    main s script_dir w
    = Returned w'
        ([EvPrint (Found (length
                     (glob_cargo_files (script_dir ++ ["crates"]) w)))]
         ++ flat_map (file_events s w)
              (sorted (glob_cargo_files (script_dir ++ ["crates"]) w))
         ++ [EvPrint (Done (length
                       (glob_cargo_files (script_dir ++ ["crates"]) w)))])
    /\ os_linesep w' = os_linesep w
    /\ forall q,
         entries w' !! q
         = if bool_decide (q ∈ glob_cargo_files (script_dir ++ ["crates"]) w)
           then rewrite_entry s (os_linesep w) <$> entries w !! q
           else entries w !! q.
Proof.
  intros Hdir Hok. unfold main. rewrite Hdir. cbn [negb].
  set (cd := script_dir ++ ["crates"]) in *.
  set (g := glob_cargo_files cd w) in *.
  unfold manifests_usable in Hok. fold g in Hok.
  rewrite forallb_forall in Hok.
  assert (Hin : forall p, p ∈ sorted g <-> p ∈ g).
  { intros p. now rewrite (sorted_permutation g). }
  destruct (process_each_spec s (sorted g) w [EvPrint (Found (length g))])
    as (w' & E & Hd & Hf).
  - rewrite (sorted_permutation g). apply glob_cargo_files_NoDup.
  - intros p Hp. apply Hok, list_elem_of_In, Hin, Hp.
  - exists w'. rewrite E. split; [|split; [exact Hd|]].
    + rewrite <- app_assoc. reflexivity.
    + intros q. rewrite Hf.
      destruct (decide (q ∈ g)) as [Hq|Hq].
      * rewrite !bool_decide_eq_true_2; [reflexivity|exact Hq|now apply Hin].
      * rewrite !bool_decide_eq_false_2; [reflexivity|exact Hq|].
        intros H. now apply Hin in H.
Qed.


(** A run keeps the kind of every entry, so the next run finds the same
    manifests, as usable as before. *)
Lemma rewrite_entry_kind (s : script) (linesep : string) (o : option entry) :
  match rewrite_entry s linesep <$> o, o with
  | Some Directory, Some Directory => True
  | Some (File r1 w1 (Text _)), Some (File r2 w2 (Text _)) =>
      r1 = r2 /\ w1 = w2
  | Some (File r1 w1 Undecodable), Some (File r2 w2 Undecodable) =>
      r1 = r2 /\ w1 = w2
  | None, None => True
  | _, _ => False
  end.
Proof. destruct o as [[|r wr [raw|]]|]; simpl; auto. Qed.

Lemma main_keeps_kinds (s : script) (script_dir : path) (w : world) :
  path_exists w (script_dir ++ ["crates"]) = true ->
  manifests_usable (script_dir ++ ["crates"]) w = true ->
  (forall q, path_exists (world_of (main s script_dir w)) q = path_exists w q)
  /\ (forall q, is_directory (world_of (main s script_dir w)) q
                = is_directory w q)
  /\ (forall q, usable_file (world_of (main s script_dir w)) q
                = usable_file w q).
Proof.
  intros Hdir Hok.
  destruct (main_run s script_dir w Hdir Hok) as (w' & E & _ & Hf).
  rewrite E. cbn [world_of].
  unfold path_exists, is_directory, usable_file.
  repeat split; intros q; rewrite Hf;
    destruct (bool_decide _); try reflexivity;
    pose proof (rewrite_entry_kind s (os_linesep w) (entries w !! q)) as Hk;
    destruct (rewrite_entry s (os_linesep w) <$> entries w !! q)
      as [[|r1 w1 [t1|]]|],
      (entries w !! q) as [[|r2 w2 [t2|]]|];
    try destruct Hk; subst; reflexivity.
Qed.

Lemma main_keeps_glob (s : script) (script_dir : path) (w : world) :
  path_exists w (script_dir ++ ["crates"]) = true ->
  manifests_usable (script_dir ++ ["crates"]) w = true ->
  forall p,
    p ∈ glob_cargo_files (script_dir ++ ["crates"])
          (world_of (main s script_dir w))
    <-> p ∈ glob_cargo_files (script_dir ++ ["crates"]) w.
Proof.
  intros Hdir Hok p.
  destruct (main_keeps_kinds s script_dir w Hdir Hok) as (He & Hd & _).
  rewrite !glob_cargo_files_spec, !Hd.
  assert (Hs : is_Some (entries (world_of (main s script_dir w)) !! p)
               <-> is_Some (entries w !! p)).
  { specialize (He p). unfold path_exists in He.
    destruct (entries (world_of (main s script_dir w)) !! p),
      (entries w !! p); try discriminate;
      split; intros H; try (eexists; reflexivity);
      destruct H; discriminate. }
  rewrite Hs. reflexivity.
Qed.

(** * Further properties of files and runs *)





(** X10. When the text of a file, as text mode delivers it, is empty or
    ends with a newline, and [os.linesep] is ['\n'] or ['\r\n'], the file
    written again ends with a newline, and the lines the next run reads from
    it are the lines this run computed. *)
Theorem next_run_reads_lines_written (s : script) (linesep raw : string) :
  known_linesep linesep = true ->
  ends_with_newline (universal_newlines raw) = true ->
  ends_with_newline (universal_newlines (rewrite_raw s linesep raw)) = true
  /\ readlines (universal_newlines (rewrite_raw s linesep raw))
     = transform_of s (readlines (universal_newlines raw)).
Proof.
  intros Hls H. split.
  - now apply rewrite_raw_ends_with_newline.
  - now apply read_lines_rewrite_raw.
Qed.

Lemma next_run_reads_lines_written_witness :
  readlines (universal_newlines
               (rewrite_raw add_hotpath crlf
                  (String.append "[dependencies]" crlf)))
  = transform_of add_hotpath
      (readlines (universal_newlines (String.append "[dependencies]" crlf))).
Proof.
  apply (next_run_reads_lines_written add_hotpath crlf
           (String.append "[dependencies]" crlf));
    reflexivity.
Defined.







(** X14. When [crates/] exists, everything found is a usable file whose
    text is empty or ends with a newline, and [os.linesep] is ['\n'] or
    ['\r\n'], the checkout is settled after two runs: a third run of [main]
    leaves the file system as the second run left it. *)
Theorem main_settles_after_two_runs (s : script) (script_dir : path)
    (w : world) :
  path_exists w (script_dir ++ ["crates"]) = true ->
  manifests_usable (script_dir ++ ["crates"]) w = true ->
  manifests_end_with_newline (script_dir ++ ["crates"]) w = true ->
  known_linesep (os_linesep w) = true ->
  world_of (main s script_dir
              (world_of (main s script_dir
                           (world_of (main s script_dir w)))))
  = world_of (main s script_dir (world_of (main s script_dir w))).
Proof.
  intros Hdir Hok Hnl Hls.
  set (cd := script_dir ++ ["crates"]) in *.
  set (w1 := world_of (main s script_dir w)).
  set (w2 := world_of (main s script_dir w1)).
  set (w3 := world_of (main s script_dir w2)).
  (* every run sees the same manifests, usable as before *)
  assert (Hnext : forall v,
            path_exists v cd = true -> manifests_usable cd v = true ->
            path_exists (world_of (main s script_dir v)) cd = true
            /\ manifests_usable cd (world_of (main s script_dir v)) = true).
  { intros v Hd Hu.
    destruct (main_keeps_kinds s script_dir v Hd Hu) as (He & _ & Hus).
    split; [now rewrite He|].
    unfold manifests_usable. apply forallb_forall.
    intros p Hp. rewrite Hus.
    pose proof Hu as Hu'. unfold manifests_usable in Hu'.
    rewrite forallb_forall in Hu'. apply Hu'.
    apply list_elem_of_In, (main_keeps_glob s script_dir v Hd Hu).
    now apply list_elem_of_In. }
  destruct (Hnext w Hdir Hok) as [Hdir1 Hok1]. fold w1 in Hdir1, Hok1.
  destruct (Hnext w1 Hdir1 Hok1) as [Hdir2 Hok2]. fold w2 in Hdir2, Hok2.
  destruct (main_run s script_dir w Hdir Hok) as (v1 & E1 & Hl1 & Hf1).
  destruct (main_run s script_dir w1 Hdir1 Hok1) as (v2 & E2 & Hl2 & Hf2).
  destruct (main_run s script_dir w2 Hdir2 Hok2) as (v3 & E3 & Hl3 & Hf3).
  assert (Ev1 : v1 = w1) by (unfold w1; now rewrite E1).
  assert (Ev2 : v2 = w2) by (unfold w2; now rewrite E2).
  assert (Ev3 : v3 = w3) by (unfold w3; now rewrite E3).
  subst v1 v2 v3. fold cd in Hf1, Hf2, Hf3.
  assert (Hg1 : forall q, q ∈ glob_cargo_files cd w1
                          <-> q ∈ glob_cargo_files cd w)
    by (apply main_keeps_glob; assumption).
  assert (Hg2 : forall q, q ∈ glob_cargo_files cd w2
                          <-> q ∈ glob_cargo_files cd w1)
    by (apply main_keeps_glob; assumption).
  assert (Hentries : entries w3 = entries w2).
  { apply map_eq. intros q. rewrite Hf3, Hf2, Hf1, Hl2, Hl1.
    destruct (decide (q ∈ glob_cargo_files cd w)) as [Hq|Hq].
    - rewrite !bool_decide_eq_true_2
        by (try exact Hq; try apply Hg1; try apply Hg2, Hg1; exact Hq).
      assert (Hu : usable_file w q = true).
      { pose proof Hok as Hok'. unfold manifests_usable in Hok'.
        rewrite forallb_forall in Hok'.
        apply Hok', list_elem_of_In, Hq. }
      apply usable_file_spec in Hu as (raw & Hraw). rewrite Hraw.
      cbn [fmap option_fmap option_map rewrite_entry]. do 3 f_equal.
      apply rewrite_raw_settles; [exact Hls|].
      unfold manifests_end_with_newline in Hnl.
      rewrite forallb_forall in Hnl.
      specialize (Hnl q). rewrite Hraw in Hnl.
      apply Hnl, list_elem_of_In, Hq.
    - rewrite !bool_decide_eq_false_2; [reflexivity|exact Hq| |].
      + intros H. now apply Hg1 in H.
      + intros H. now apply Hg2, Hg1 in H. }
  assert (Hsep : os_linesep w3 = os_linesep w2) by exact Hl3.
  destruct w3 as [e3 l3], w2 as [e2 l2]. cbn [entries os_linesep] in *.
  congruence.
Qed.

Lemma main_settles_after_two_runs_witness :
  world_of (main add_hotpath ["repo"]
              (world_of (main add_hotpath ["repo"]
                           (world_of (main add_hotpath ["repo"]
                                        sample_world)))))
  = world_of (main add_hotpath ["repo"]
                (world_of (main add_hotpath ["repo"] sample_world))).
Proof.
  apply (main_settles_after_two_runs add_hotpath ["repo"] sample_world);
    vm_compute; reflexivity.
Defined.

(** X15. When the last line of the file, as text mode delivers it, is its
    first dependencies header and lacks its newline, the dependency line is
    written onto the line of the header: read back, no line equals the
    dependency line.  The next run keeps the glued line and inserts the
    dependency line once more. *)
Theorem unterminated_header_glues_dependency_line (s : script)
    (linesep raw : string) (pre : list string) (d : string) :
  known_linesep linesep = true ->
  readlines (universal_newlines raw) = pre ++ [d] ->
  forallb terminated pre = true ->
  no_newline d = true ->
  match_dependencies d = true ->
  existsb match_dependencies pre = false ->
  In (String.append d (dependency_line s))
    (readlines (universal_newlines (rewrite_raw s linesep raw)))
  /\ count_lines (String.eqb (dependency_line s))
       (readlines (universal_newlines (rewrite_raw s linesep raw))) = 0
  /\ In (String.append d (dependency_line s))
       (transform_of s
          (readlines (universal_newlines (rewrite_raw s linesep raw))))
  /\ count_lines (String.eqb (dependency_line s))
       (transform_of s
          (readlines (universal_newlines (rewrite_raw s linesep raw)))) = 1.
Proof.
  intros Hls Hread Hpre Hnn Hd Hnd.
  pose proof (script_ok s) as Hok.
  destruct (directive_lines_terminated s) as [Htd Htf].
  destruct (unterminated_header_glued _ _ Hok Htd Htf
              (universal_newlines raw) pre d Hread Hpre Hnn Hd Hnd)
    as (before & after & E & Hb & Ha).
  assert (Hback : readlines (universal_newlines (rewrite_raw s linesep raw))
                  = before ++ String.append d (dependency_line s) :: after).
  { unfold rewrite_raw, read_lines.
    rewrite universal_newline_out.
    - rewrite (transform_of_generic s _). exact E.
    - exact Hls.
    - apply writelines_no_cr, transform_of_no_cr, read_lines_no_cr. }
  rewrite Hback.
  set (glued := String.append d (dependency_line s)).
  assert (Hgd : match_dependencies glued = true)
    by now apply prefix_append.
  assert (Hgb : match_bracket glued = true)
    by now apply match_dependencies_bracket.
  assert (Hne : String.eqb (dependency_line s) glued = false).
  { destruct (String.eqb (dependency_line s) glued) eqn:Eg; [|reflexivity].
    apply String.eqb_eq in Eg. rewrite <- Eg in Hgb.
    rewrite (dep_no_bracket _ _ Hok) in Hgb. discriminate. }
  assert (Hin : In glued (before ++ glued :: after))
    by (apply in_or_app; right; now left).
  split; [exact Hin|]. split; [|split].
  - rewrite count_lines_app, count_lines_cons, Hne. lia.
  - rewrite transform_of_generic.
    apply (Permutation_in _
             (Permutation_sym (transform_permutation _ _ Hok _))).
    apply in_or_app. left. unfold cleanup. apply List.filter_In.
    split; [exact Hin|]. apply negb_true_iff.
    destruct (is_directive (dependency_line s) (feature_lines s) glued)
      eqn:Eg; [|reflexivity].
    apply (directive_no_bracket _ _ Hok) in Eg. congruence.
  - rewrite transform_of_generic, (transform_dependency_lines _ _ Hok).
    assert (Hex : existsb match_dependencies (before ++ glued :: after)
                  = true).
    { apply existsb_exists. exists glued. auto. }
    now rewrite Hex.
Qed.

Lemma unterminated_header_glues_dependency_line_witness :
  In (String.append "[dependencies]" (dependency_line add_hotpath))
    (readlines (universal_newlines
                  (rewrite_raw add_hotpath nl "[dependencies]")))
  /\ count_lines (String.eqb (dependency_line add_hotpath))
       (readlines (universal_newlines
                     (rewrite_raw add_hotpath nl "[dependencies]"))) = 0.
Proof.
  assert (H0 : known_linesep nl = true) by reflexivity.
  assert (H1 : readlines (universal_newlines "[dependencies]")
               = [] ++ ["[dependencies]"]) by reflexivity.
  assert (H2 : forallb terminated [] = true) by reflexivity.
  assert (H3 : no_newline "[dependencies]" = true) by reflexivity.
  assert (H4 : match_dependencies "[dependencies]" = true) by reflexivity.
  assert (H5 : existsb match_dependencies [] = false) by reflexivity.
  destruct (unterminated_header_glues_dependency_line add_hotpath nl
              "[dependencies]" [] "[dependencies]" H0 H1 H2 H3 H4 H5)
    as (Ha & Hb & _).
  split; [exact Ha|exact Hb].
Defined.

(** X18. When [crates/] exists and something found there cannot be
    processed (a directory named [Cargo.toml], a file that may not be read
    or written, bytes that do not decode), [main] ends with an uncaught
    exception: the exit status is 1 and the closing count is never
    printed. *)
Theorem main_fails_on_unusable_manifest (s : script) (script_dir : path)
    (w : world) :
  path_exists w (script_dir ++ ["crates"]) = true ->
  manifests_usable (script_dir ++ ["crates"]) w = false ->
  exit_status (main s script_dir w) = 1
  /\ Forall (fun ev => forall n, ev <> EvPrint (Done n))
       (trace_of (main s script_dir w)).
Proof.
  intros Hdir Hbad. unfold main. rewrite Hdir. cbn [negb].
  set (g := glob_cargo_files (script_dir ++ ["crates"]) w) in *.
  assert (Hex : exists p, p ∈ sorted g /\ usable_file w p = false).
  { unfold manifests_usable in Hbad. fold g in Hbad.
    assert (H : existsb (fun p => negb (usable_file w p)) g = true).
    { clear -Hbad. induction g as [|p g IH]; [discriminate|].
      cbn in *. destruct (usable_file w p); cbn in *; auto. }
    apply existsb_exists in H as (p & Hp & Hu).
    apply negb_true_iff in Hu. exists p. split; [|exact Hu].
    rewrite (sorted_permutation g). now apply list_elem_of_In. }
  destruct (process_each_raises s (sorted g) w [EvPrint (Found (length g))]
              Hex) as (e & w' & tr & E & _ & Hall).
  - constructor; [intros n; discriminate|constructor].
  - rewrite E. split; [reflexivity|exact Hall].
Qed.

Lemma main_fails_on_unusable_manifest_witness :
  exit_status (main add_hotpath ["repo"] broken_world) = 1.
Proof.
  apply (main_fails_on_unusable_manifest add_hotpath ["repo"] broken_world);
    vm_compute; reflexivity.
Defined.
